(** * The camera-transfer harness (apxfr/src/harness.py and the older
      src/harness.py): a shallow embedding and its properties.

    The harness waits for wall-clock exposure times, names one artifact per
    exposure, stages it in a temporary directory and hands it to an uploader
    chosen from the scheme of the destination URI.

    Strings are [string]; Python integers are [Z]; a naive [datetime] is the
    number of microseconds since 0001-01-01 00:00:00; everything the harness
    does to the outside world (clock, log, subprocesses, network, files) goes
    through one state-and-exception monad whose answers come from an
    environment. *)

From Stdlib Require Import ZArith List String Ascii Bool Lia.
From Stdlib Require Import DecimalString.
Import ListNotations.
Open Scope string_scope.
Open Scope Z_scope.

(** ** Python strings *)

Module Str.

Definition len (s : string) : Z := Z.of_nat (String.length s).

(** [s.startswith(p)] *)
Fixpoint startswith (p s : string) : bool :=
  match p, s with
  | EmptyString, _ => true
  | String _ _, EmptyString => false
  | String a p', String b s' => Ascii.eqb b a && startswith p' s'
  end.

(** [s[n:]] for [0 <= n] *)
Fixpoint drop (n : nat) (s : string) : string :=
  match n, s with
  | O, _ => s
  | S _, EmptyString => EmptyString
  | S k, String _ t => drop k t
  end.

(** [s[:n]] for [0 <= n] *)
Fixpoint take (n : nat) (s : string) : string :=
  match n, s with
  | O, _ => EmptyString
  | S _, EmptyString => EmptyString
  | S k, String a t => String a (take k t)
  end.

(** [c in s] for a one-character [c] *)
Fixpoint contains (c : ascii) (s : string) : bool :=
  match s with
  | EmptyString => false
  | String a t => Ascii.eqb a c || contains c t
  end.

(** [s.split(c)]: all the pieces, at least one. *)
Fixpoint split (c : ascii) (s : string) : list string :=
  match s with
  | EmptyString => [EmptyString]
  | String a t =>
      if Ascii.eqb a c then EmptyString :: split c t
      else match split c t with
           | h :: r => String a h :: r
           | [] => [String a EmptyString]
           end
  end.

(** [s.split(c, n)]: at most [n] cuts, from the left. *)
Fixpoint splitn (n : nat) (c : ascii) (s : string) : list string :=
  match n with
  | O => [s]
  | S k =>
      match s with
      | EmptyString => [EmptyString]
      | String a t =>
          if Ascii.eqb a c then EmptyString :: splitn k c t
          else match splitn n c t with
               | h :: r => String a h :: r
               | [] => [String a EmptyString]
               end
      end
  end.

(** [sep.join(l)] *)
Definition join (sep : string) (l : list string) : string :=
  String.concat sep l.

(** [s.rfind(c)]: index of the last [c], or -1. *)
Fixpoint rfind (c : ascii) (s : string) : Z :=
  match s with
  | EmptyString => -1
  | String a t =>
      let r := rfind c t in
      if 0 <=? r then r + 1
      else if Ascii.eqb a c then 0 else -1
  end.

(** The characters [str.strip()] and [int()] treat as blank. *)
Definition is_space (a : ascii) : bool :=
  let n := nat_of_ascii a in
  (Nat.eqb n 32 || (Nat.leb 9 n && Nat.leb n 13) ||
   (Nat.leb 28 n && Nat.leb n 31))%bool.

Fixpoint lstrip (s : string) : string :=
  match s with
  | String a t => if is_space a then lstrip t else s
  | EmptyString => EmptyString
  end.

Fixpoint rstrip (s : string) : string :=
  match s with
  | EmptyString => EmptyString
  | String a t =>
      match rstrip t with
      | EmptyString => if is_space a then EmptyString
                       else String a EmptyString
      | r => String a r
      end
  end.

Definition strip (s : string) : string := rstrip (lstrip s).

Definition digit_val (a : ascii) : option Z :=
  let n := nat_of_ascii a in
  if (Nat.leb 48 n && Nat.leb n 57)%bool
  then Some (Z.of_nat (n - 48)) else None.

End Str.

(** ** Python numbers and their text *)

Module Py.

(** The digits of [int(s)] after blanks and sign are gone: one or more
    decimal digits, single underscores allowed between digits.
    [acc] is the value read so far, [prev] tells whether the previous
    character was a digit. *)
Fixpoint int_digits (s : string) (acc : Z) (prev : bool) : option Z :=
  match s with
  | EmptyString => if prev then Some acc else None
  | String a t =>
      match Str.digit_val a with
      | Some d => int_digits t (10 * acc + d) true
      | None =>
          if (Ascii.eqb a "_" && prev)%bool
          then int_digits t acc false
          else None
      end
  end.

(** [int(s)] in base ten; [None] is Python's [ValueError]. *)
Definition int (s : string) : option Z :=
  match Str.strip s with
  | String "+" t => int_digits t 0 false
  | String "-" t => option_map Z.opp (int_digits t 0 false)
  | t => int_digits t 0 false
  end.

(** [str(n)] for [0 <= n] *)
Definition digits (n : Z) : string :=
  NilZero.string_of_uint (N.to_uint (Z.to_N n)).

Fixpoint zeros (k : nat) : string :=
  match k with
  | O => EmptyString
  | S j => String "0" (zeros j)
  end.

(** [f"{n:0{w}d}"]: sign first, zeros up to the width, then the digits. *)
Definition fmt_d (w : nat) (n : Z) : string :=
  let sign := if n <? 0 then "-" else "" in
  let ds := digits (Z.abs n) in
  sign ++ zeros (w - String.length sign - String.length ds) ++ ds.

End Py.

(** ** pathlib: pure POSIX paths *)

Module Pathlib.

(** A parsed path: the root ([""], ["/"] or ["//"]) and the components
    after it. *)
Record Path := mkPath { root : string; tail : list string }.

(** [posixpath.join(a, b)] *)
Definition posix_join (a b : string) : string :=
  if Str.startswith "/" b then b
  else if (String.eqb a "" || Str.startswith "/" (Str.drop
             (String.length a - 1) a))%bool
       then a ++ b
       else a ++ "/" ++ b.

Fixpoint lstrip_sep (s : string) : string :=
  match s with
  | String "/" t => lstrip_sep t
  | _ => s
  end.

(** The root of a raw path: exactly two leading slashes are kept, any
    other number of them is one. *)
Definition root_of (s : string) : string :=
  if Str.startswith "/" s then
    if (Str.startswith "//" s && negb (Str.startswith "///" s))%bool
    then "//" else "/"
  else "".

Definition keep_part (x : string) : bool :=
  negb (String.eqb x "" || String.eqb x ".").

(** [PurePosixPath._parse_path] *)
Definition parse (s : string) : Path :=
  mkPath (root_of s) (filter keep_part (Str.split "/" (lstrip_sep s))).

(** [Path(s1, s2, ...)]: the segments are joined, then parsed. *)
Definition of_segments (l : list string) : Path :=
  parse (fold_left posix_join l "").

(** [str(p)] *)
Definition str (p : Path) : string :=
  match root p, tail p with
  | EmptyString, [] => "."
  | r, t => r ++ Str.join "/" t
  end.

(** [p.joinpath(s1, s2, ...)] *)
Definition joinpath (p : Path) (l : list string) : Path :=
  of_segments (str p :: l).

(** [p / q] *)
Definition truediv (p q : Path) : Path := of_segments [str p; str q].

(** [p.parent] *)
Definition parent (p : Path) : Path :=
  match tail p with
  | [] => p
  | t => mkPath (root p) (removelast t)
  end.

(** [p.name] *)
Definition name (p : Path) : string := last (tail p) "".

(** [p.suffix] *)
Definition suffix (p : Path) : string :=
  let n := name p in
  let i := Str.rfind "." n in
  if ((0 <? i) && (i <? Str.len n - 1))%bool
  then Str.drop (Z.to_nat i) n else "".

(** [p.with_suffix(sfx)]; [None] is Python's [ValueError]. *)
Definition with_suffix (p : Path) (sfx : string) : option Path :=
  if Str.contains "/" sfx then None
  else if ((negb (String.eqb sfx "") && negb (Str.startswith "." sfx))
           || String.eqb sfx ".")%bool then None
  else
    let n := name p in
    if String.eqb n "" then None
    else
      let old := suffix p in
      let n' := if String.eqb old "" then n ++ sfx
                else Str.take (String.length n - String.length old) n
                     ++ sfx in
      Some (mkPath (root p) (removelast (tail p) ++ [n'])).

End Pathlib.

(** ** datetime: naive instants, in microseconds since 0001-01-01 00:00 *)

Module Datetime.

Definition us_per_second : Z := 1000000.
Definition us_per_day : Z := 86400 * us_per_second.

(** [datetime.max] is 9999-12-31 23:59:59.999999: ordinal 3652059. *)
Definition max_ordinal : Z := 3652059.
Definition max_instant : Z := max_ordinal * us_per_day - 1.

Definition in_range (t : Z) : bool := (0 <=? t) && (t <=? max_instant).

(** [d.toordinal()]: day 1 is 0001-01-01. *)
Definition toordinal (t : Z) : Z := t / us_per_day + 1.

(** Microseconds since midnight. *)
Definition time_of_day (t : Z) : Z := t mod us_per_day.

Definition days_before_month (m : Z) : Z :=
  nth (Z.to_nat m)
      [-1; 0; 31; 59; 90; 120; 151; 181; 212; 243; 273; 304; 334] 0.

Definition days_in_month (m : Z) : Z :=
  nth (Z.to_nat m) [-1; 31; 28; 31; 30; 31; 30; 31; 31; 30; 31; 30; 31] 0.

(** [_ord2ymd]: ordinal to (year, month, day). *)
Definition ord2ymd (ordinal : Z) : Z * Z * Z :=
  let n := ordinal - 1 in
  let n400 := n / 146097 in
  let n := n mod 146097 in
  let year := n400 * 400 + 1 in
  let n100 := n / 36524 in
  let n := n mod 36524 in
  let n4 := n / 1461 in
  let n := n mod 1461 in
  let n1 := n / 365 in
  let n := n mod 365 in
  let year := year + n100 * 100 + n4 * 4 + n1 in
  if ((n1 =? 4) || (n100 =? 4))%bool then (year - 1, 12, 31)
  else
    let leapyear := ((n1 =? 3) && (negb (n4 =? 24) || (n100 =? 3)))%bool in
    let month := Z.shiftr (n + 50) 5 in
    let preceding := days_before_month month
                     + (if ((2 <? month) && leapyear)%bool then 1 else 0) in
    if n <? preceding then
      let month := month - 1 in
      let preceding := preceding
                       - (days_in_month month
                          + (if ((month =? 2) && leapyear)%bool
                             then 1 else 0)) in
      (year, month, n - preceding + 1)
    else (year, month, n - preceding + 1).

(** [d.strftime("%Y%m%d")], the year on four digits *)
Definition strftime_Ymd (t : Z) : string :=
  let '(y, m, d) := ord2ymd (toordinal t) in
  Py.fmt_d 4 y ++ Py.fmt_d 2 m ++ Py.fmt_d 2 d.

(** [d.strftime("%Y-%m-%d")] *)
Definition strftime_Y_m_d (t : Z) : string :=
  let '(y, m, d) := ord2ymd (toordinal t) in
  Py.fmt_d 4 y ++ "-" ++ Py.fmt_d 2 m ++ "-" ++ Py.fmt_d 2 d.

(** [d.replace(hour=h, minute=m, second=0, microsecond=0)]; [None] is
    Python's [ValueError] for an hour or a minute out of range. *)
Definition replace_hm (t h m : Z) : option Z :=
  if ((0 <=? h) && (h <=? 23) && (0 <=? m) && (m <=? 59))%bool
  then Some (t - time_of_day t + (h * 3600 + m * 60) * us_per_second)
  else None.

(** [d.replace(hour=h, minute=m, second=0)]: the microseconds stay. *)
Definition replace_hm_keep_us (t h m : Z) : option Z :=
  if ((0 <=? h) && (h <=? 23) && (0 <=? m) && (m <=? 59))%bool
  then Some (t - time_of_day t + (h * 3600 + m * 60) * us_per_second
             + t mod us_per_second)
  else None.

(** [d + timedelta(seconds=s)]; [None] is Python's [OverflowError] when
    the sum leaves the range of [datetime]. *)
Definition add_seconds (t s : Z) : option Z :=
  let r := t + s * us_per_second in
  if in_range r then Some r else None.

End Datetime.

(** ** The outside world *)

(** Exceptions the harness can end with. [External] stands for whatever an
    outside operation raises ([OSError], [ImportError], a client library's
    own errors, ...); all of them derive from Python's [Exception]. *)
Inductive exn : Type :=
| ValueError (msg : string)
| RuntimeError (msg : string)
| OverflowError (msg : string)
| NameError (msg : string)
| HTTPError (status : Z)
| External (what : string).

(** What [logging.info] is given, one constructor per message of the
    source. Durations and instants are in microseconds. *)
Inductive LogMsg : Type :=
| LateMsg (delay num when : Z)
| SleepingMsg (delay num when : Z)
| StartMsg (fname : string)
| EndMsg (fname : string) (delta : Z)
| CopyingMsg (source dest : string)
| CompressingMsg (dest : string)
| CreatingMsg (dest : string)
| GsapiOpenMsg (bucket prefix : string)
| IgnoredMsg (exc : exn)
| GsapiUploadMsg (prefix source : string)
| BotoOpenMsg (host bucket prefix : string)
| BotoUploadMsg (prefix source : string)
| MinioOpenMsg (host bucket prefix : string)
| MinioUploadMsg (prefix source : string)
| HttpOpenMsg (dest : string)
| HttpPutMsg (url source : string)
| BbcpSaveMsg (host path : string)
| BbcpDirMsg (dir file : string)
| ScpSaveMsg (host path : string)
| ScpDirMsg (dir file : string)
| UsingTempMsg (temp_dir : string)
| CopyingFromMsg (source dest : string) (compress : bool)
| SleepingUntilMsg (delay hour minute : Z)
| GsutilSaveMsg (url : string)
| GsutilCpMsg (url source : string)
| CopyDoneMsg
| TransferDoneMsg.

(** The operations that reach outside the process. *)
Inductive Call : Type :=
| CNow                                    (* datetime.now(), time.time() *)
| CLog (m : LogMsg)                       (* logging.info *)
| CSleep (d : Z)                          (* time.sleep, microseconds *)
| CMkdir (dir : string)                   (* Path.mkdir(parents, exist_ok) *)
| CRun (argv : list string) (stdin stdout : option string)
                                          (* subprocess.run *)
| COpen (file mode : string)              (* Path.open(mode) *)
| CExists (file : string)                 (* Path.exists(): 0 is False *)
| CImport (module : string)               (* import inside a constructor *)
| CBucket (bucket : string)               (* storage.Client().bucket(b) *)
| CDownload (bucket blob : string)        (* blob.download_as_string() *)
| CUpload (bucket key file : string)      (* object-store upload *)
| CClient (service : string)              (* boto3.client, Minio(host) *)
| CPutObject (bucket key : string)        (* zero-byte put_object *)
| CSession                                (* requests.Session() *)
| CPut (url file : string)                (* session.put *)
| CMkdtemp (dir : string)                 (* TemporaryDirectory(dir=...) *)
| CCleanup (dir : string).                (* leaving the with block *)

(** How the outside answers: it completes with a status (an exit status, an
    HTTP status code, or 0 where there is none), or it raises. *)
Inductive Outcome : Type :=
| Done (status : Z)
| Fails (what : string).

(** The environment of one run: the answer to each call, how long each
    call takes beyond what it asks for, and the name [mkdtemp] picks; all
    three may depend on the instant of the call. Durations are natural
    numbers: the wall clock is not set back during a run. *)
Record Env : Type := mkEnv {
  answer : Z -> Call -> Outcome;
  elapse : Z -> Call -> N;
  tmpname : Z -> string -> string
}.

(** The state of a run: the wall clock and the calls made so far. *)
Record World : Type := mkWorld { clock : Z; trace : list Call }.

Inductive Res (A : Type) : Type :=
| Ok (a : A)
| Raise (e : exn).
Arguments Ok {A} a.
Arguments Raise {A} e.

Definition M (A : Type) : Type := World -> Res A * World.

Definition ret {A} (a : A) : M A := fun w => (Ok a, w).

Definition raise {A} (e : exn) : M A := fun w => (Raise e, w).

Definition bind {A B} (m : M A) (f : A -> M B) : M B :=
  fun w => match m w with
           | (Ok a, w1) => f a w1
           | (Raise e, w1) => (Raise e, w1)
           end.

Declare Scope harness_scope.
Delimit Scope harness_scope with harness.
Notation "x <- m ;; k" := (bind m (fun x => k))
  (at level 61, m at next level, right associativity) : harness_scope.
Notation "' p <- m ;; k" := (bind m (fun x => let p := x in k))
  (at level 61, p pattern, m at next level, right associativity)
  : harness_scope.
Notation "m ;; k" := (bind m (fun _ => k))
  (at level 61, right associativity) : harness_scope.
Open Scope harness_scope.

(** [try: body finally: fin]: [fin] runs on both exits; what [body]
    returned or raised stands unless [fin] itself raises. *)
Definition try_finally {A} (body : M A) (fin : M unit) : M A :=
  fun w => match body w with
           | (r, w1) => match fin w1 with
                        | (Ok _, w2) => (r, w2)
                        | (Raise e, w2) => (Raise e, w2)
                        end
           end.

(** [try: body except Exception as exc: handler(exc)] *)
Definition try_except {A} (body : M A) (handler : exn -> M A) : M A :=
  fun w => match body w with
           | (Ok a, w1) => (Ok a, w1)
           | (Raise e, w1) => handler e w1
           end.

(** A Python operation that returns [None] on a [ValueError] and the like. *)
Definition lift {A} (o : option A) (e : exn) : M A :=
  match o with
  | Some a => ret a
  | None => raise e
  end.

(** [for i in range(n): body(i)] *)
Fixpoint for_from (n : nat) (i : Z) (body : Z -> M unit) : M unit :=
  match n with
  | O => ret tt
  | S k => body i ;; for_from k (i + 1) body
  end.

Definition for_range (n : Z) (body : Z -> M unit) : M unit :=
  for_from (Z.to_nat n) 0 body.

Section Primitives.

Variable env : Env.

(** One call: it is recorded, the clock moves on by what the call took. *)
Definition advance (c : Call) (extra : Z) (w : World) : World :=
  mkWorld (clock w + extra + Z.of_N (elapse env (clock w) c))
          (trace w ++ [c]).

(** A call that may raise. *)
Definition call (c : Call) : M Z :=
  fun w => match answer env (clock w) c with
           | Done s => (Ok s, advance c 0 w)
           | Fails what => (Raise (External what), advance c 0 w)
           end.

(** [datetime.now()] *)
Definition datetime_now : M Z :=
  fun w => (Ok (clock w), advance CNow 0 w).

(** [time.time()], in microseconds *)
Definition time_time : M Z := datetime_now.

(** [logging.info(msg)] *)
Definition logging_info (m : LogMsg) : M unit :=
  fun w => (Ok tt, advance (CLog m) 0 w).

(** The longest delay [time.sleep] takes, in microseconds: the seconds
    are turned into a signed 64-bit count of nanoseconds, which holds
    about 292 years. *)
Definition sleep_max : Z := 9223372036854775.

(** The two delays above [sleep_max] that still round to [2^63]
    nanoseconds: CPython 3.11 lets them through its range test, the
    conversion to 64 bits turns them negative, and they are refused as
    negative delays are. *)
Definition sleep_wrap : Z := 9223372036854777.

(** [time.sleep(d)]: suspends for at least [d]; a negative [d] is a
    [ValueError], a [d] that 64 bits of nanoseconds cannot hold is an
    [OverflowError]. *)
Definition time_sleep (d : Z) : M unit :=
  fun w => if d <? 0
           then (Raise (ValueError "sleep length must be non-negative"), w)
           else if d <=? sleep_max
           then (Ok tt, advance (CSleep d) d w)
           else if d <=? sleep_wrap
           then (Raise (ValueError "sleep length must be non-negative"), w)
           else (Raise (OverflowError
                          "timestamp too large to convert to C _PyTime_t"),
                 w).

(** [subprocess.run(argv, stdin=...)] without [check]: the exit status
    comes back in the result and is not looked at by [run] itself. *)
Definition subprocess_run (argv : list string)
           (stdin stdout : option string) : M Z :=
  call (CRun argv stdin stdout).

(** The [log_timing] decorator. *)
Definition log_timing {A} (fname : string) (func : M A) : M A :=
  logging_info (StartMsg fname) ;;
  start <- time_time ;;
  try_finally func
    (t <- time_time ;; logging_info (EndMsg fname (t - start))).

End Primitives.

(** ** apxfr/src/harness.py *)

Module Harness.

Import Pathlib.

(** The uploader classes of the file, each with the attributes its
    constructor sets. *)
Inductive Uploader : Type :=
| GsapiUploader (bucket prefix : string)
| BotoUploader (bucket prefix : string)
| MinioUploader (host bucket prefix : string)
| HttpUploader (url : string)
| BbcpUploader (host : string) (path : Path)
| ScpUploader (host : string) (path : Path).

Record Waiter : Type := mkWaiter { base_time : Z; interval : Z }.

(** [a, b = l] *)
Definition unpack2 (l : list string) : M (string * string) :=
  match l with
  | [a; b] => ret (a, b)
  | _ => raise (ValueError "wrong number of values to unpack")
  end.

(** [a, b, c = l] *)
Definition unpack3 (l : list string) : M (string * string * string) :=
  match l with
  | [a; b; c] => ret (a, b, c)
  | _ => raise (ValueError "wrong number of values to unpack")
  end.

Definition py_int (s : string) : M Z :=
  lift (Py.int s) (ValueError "invalid literal for int()").

(** The path expression of [simulate], lines 377-380. *)
Definition dest_path (obs_day_str obs_day : string) (seqnum : Z)
           (ccd_name : string) : Path :=
  joinpath (parse obs_day_str)
    [obs_day ++ Py.fmt_d 5 seqnum;
     "MC_O_" ++ obs_day ++ "_" ++ Py.fmt_d 5 seqnum ++ "_" ++ ccd_name
     ++ ".fits"].

Section WithEnv.

Variable env : Env.

(** *** Waiter *)

Definition Waiter_init (hour minute interval : Z) : M Waiter :=
  t <- datetime_now env ;;
  b <- lift (Datetime.replace_hm t hour minute)
            (ValueError "hour or minute out of range") ;;
  ret (mkWaiter b interval).

(** [timedelta(seconds=...)] and the addition both raise
    [OverflowError]; the range of [datetime] is the narrower one, so
    one test stands for both. [total_seconds()] is a float in the
    source; the delay is kept here as the whole number of microseconds
    the [timedelta] holds. *)
Definition wait_exposure (self : Waiter) (num : Z) : M unit :=
  when <- lift (Datetime.add_seconds (base_time self)
                                     (num * interval self))
               (OverflowError "date value out of range") ;;
  t <- datetime_now env ;;
  let delay := when - t in
  if delay <? 0 then
    logging_info env (LateMsg (Z.abs delay) num when)
  else
    logging_info env (SleepingMsg (Z.abs delay) num when) ;;
    time_sleep env delay.

(** *** copy *)

Definition copy (source temp dest : Path) (compress : bool) : M Path :=
  log_timing env "copy"
    (call env (CMkdir (str (parent (truediv temp dest)))) ;;
     logging_info env (CopyingMsg (str source) (str (truediv temp dest))) ;;
     subprocess_run env ["cp"; str source; str (truediv temp dest)] None None ;;
     if compress then
       logging_info env (CompressingMsg (str (truediv temp dest))) ;;
       subprocess_run env ["fpack"; str (truediv temp dest)] None None ;;
       lift (with_suffix dest ".fits.fz") (ValueError "empty name")
     else ret dest).

(** *** The uploader constructors *)

Definition GsapiUploader_init (dest : string) : M Uploader :=
  call env (CImport "google.cloud.storage") ;;
  '(bucket, prefix) <-
     (if Str.contains "/" dest
      then unpack2 (Str.splitn 1 "/" dest)
      else ret (dest, "")) ;;
  logging_info env (GsapiOpenMsg bucket prefix) ;;
  call env (CBucket bucket) ;;
  try_except (call env (CDownload bucket ".null") ;; ret tt)
             (fun exc => logging_info env (IgnoredMsg exc)) ;;
  ret (GsapiUploader bucket prefix).

Definition BotoUploader_init (dest : string) : M Uploader :=
  call env (CImport "boto3") ;;
  '(host, bucket, prefix) <- unpack3 (Str.splitn 2 "/" dest) ;;
  logging_info env (BotoOpenMsg host bucket prefix) ;;
  call env (CClient "s3") ;;
  call env (CPutObject bucket ".null") ;;
  ret (BotoUploader bucket prefix).

(** [BytesIO] is not imported by the file: building the arguments of
    [put_object] raises [NameError]. *)
Definition MinioUploader_init (dest : string) : M Uploader :=
  call env (CImport "minio") ;;
  '(host, bucket, prefix) <- unpack3 (Str.splitn 2 "/" dest) ;;
  logging_info env (MinioOpenMsg host bucket prefix) ;;
  call env (CClient host) ;;
  raise (NameError "name 'BytesIO' is not defined").

Definition HttpUploader_init (dest : string) : M Uploader :=
  call env (CImport "requests") ;;
  logging_info env (HttpOpenMsg dest) ;;
  call env CSession ;;
  ret (HttpUploader dest).

Definition BbcpUploader_init (dest : string) : M Uploader :=
  '(host, path) <- unpack2 (Str.splitn 1 "/" dest) ;;
  logging_info env (BbcpSaveMsg host path) ;;
  ret (BbcpUploader host (parse path)).

Definition ScpUploader_init (dest : string) : M Uploader :=
  '(host, path) <- unpack2 (Str.splitn 1 "/" dest) ;;
  logging_info env (ScpSaveMsg host path) ;;
  ret (ScpUploader host (parse path)).

(** *** Uploader.create *)

Definition create (dest : string) : M Uploader :=
  logging_info env (CreatingMsg dest) ;;
  if Str.startswith "gsapi://" dest then
    GsapiUploader_init (Str.drop (String.length "gsapi://") dest)
  else if Str.startswith "boto://" dest then
    GsapiUploader_init (Str.drop (String.length "boto://") dest)
  else if Str.startswith "minio://" dest then
    GsapiUploader_init (Str.drop (String.length "minio://") dest)
  else if (Str.startswith "https://" dest
           || Str.startswith "http://" dest)%bool then
    HttpUploader_init dest
  else if Str.startswith "bbcp://" dest then
    HttpUploader_init (Str.drop (String.length "bbcp://") dest)
  else if Str.startswith "scp://" dest then
    ScpUploader_init (Str.drop (String.length "scp://") dest)
  else raise (RuntimeError ("Unrecognized URL " ++ dest)).

(** *** transfer, one body per class *)

(** [r.raise_for_status()] *)
Definition raise_for_status (status : Z) : M unit :=
  if ((400 <=? status) && (status <? 600))%bool
  then raise (HTTPError status) else ret tt.

Definition transfer (self : Uploader) (temp_dir source : Path) : M unit :=
  let file := str (truediv temp_dir source) in
  match self with
  | GsapiUploader bucket prefix =>
      log_timing env "transfer"
        (logging_info env (GsapiUploadMsg prefix (str source)) ;;
         let key := if String.eqb prefix "" then str source
                    else prefix ++ "/" ++ str source in
         call env (CUpload bucket key file) ;;
         ret tt)
  | BotoUploader bucket prefix =>
      log_timing env "transfer"
        (logging_info env (BotoUploadMsg prefix (str source)) ;;
         call env (CUpload bucket (prefix ++ "/" ++ str source) file) ;;
         ret tt)
  | MinioUploader host bucket prefix =>
      log_timing env "transfer"
        (logging_info env (MinioUploadMsg prefix (str source)) ;;
         call env (CUpload bucket (prefix ++ "/" ++ str source) file) ;;
         ret tt)
  | HttpUploader url =>
      log_timing env "transfer"
        (logging_info env (HttpPutMsg url (str source)) ;;
         call env (COpen file "rb") ;;
         status <- call env (CPut (url ++ "/" ++ str source) file) ;;
         raise_for_status status)
  | BbcpUploader host path =>
      log_timing env "transfer"
        (logging_info env
           (BbcpDirMsg (str (truediv path (parent source))) (str source)) ;;
         subprocess_run env
           ["bbcp"; "-A"; str (truediv path source);
            host ++ ":" ++ str (truediv path source)] None None ;;
         ret tt)
  | ScpUploader host path =>
      log_timing env "transfer"
        (logging_info env
           (ScpDirMsg (str (truediv path (parent source))) (str source)) ;;
         call env (COpen file "rb") ;;
         subprocess_run env
           ["ssh"; host;
            "mkdir -p " ++ str (truediv path (parent source))
            ++ ";cat > " ++ str (truediv path source)] (Some file) None ;;
         ret tt)
  end.

(** *** simulate *)

(** [with tempfile.TemporaryDirectory(dir=tempdir) as temp_dir: body] *)
Definition with_tempdir {A} (tempdir : Path) (body : string -> M A)
  : M A :=
  fun w =>
    let temp_dir := tmpname env (clock w) (str tempdir) in
    (call env (CMkdtemp (str tempdir)) ;;
     try_finally (body temp_dir)
                 (call env (CCleanup temp_dir) ;; ret tt)) w.

(** The body of the loop, lines 373-385. *)
Definition exposure (uploader : Uploader) (waiter : Waiter)
           (seqnum_start : Z) (obs_day_str obs_day : string)
           (ccd_name : string) (temp_path inputfile : Path)
           (compress : bool) (i : Z) : M unit :=
  wait_exposure waiter i ;;
  let seqnum := seqnum_start + i in
  let source_path := inputfile in
  let dest := dest_path obs_day_str obs_day seqnum ccd_name in
  logging_info env
    (CopyingFromMsg (str source_path) (str (truediv temp_path dest))
                    compress) ;;
  dest <- copy source_path temp_path dest compress ;;
  transfer uploader temp_path dest.

(** [logging.basicConfig] and the [print] of the socket options come
    first in the source; they reach neither the clock nor the destination
    and are left out. *)
Definition simulate (ccd_name starttime destination : string)
           (interval : Z) (tempdir : Path) (numexp : Z)
           (inputfile : Path) (compress : bool) : M unit :=
  '(hour, minute) <- unpack2 (Str.split ":" starttime) ;;
  n <- py_int (hour ++ minute) ;;
  let seqnum_start := n * 10 in
  uploader <- create destination ;;
  h <- py_int hour ;;
  m <- py_int minute ;;
  waiter <- Waiter_init h m interval ;;
  now <- datetime_now env ;;
  let obs_day := Datetime.strftime_Ymd now in
  let obs_day_str := Datetime.strftime_Y_m_d now in
  with_tempdir tempdir (fun temp_dir =>
    logging_info env (UsingTempMsg temp_dir) ;;
    let temp_path := parse temp_dir in
    for_range numexp
      (exposure uploader waiter seqnum_start obs_day_str obs_day
                ccd_name temp_path inputfile compress)).

End WithEnv.

End Harness.

(** ** src/harness.py, the older single-process harness *)

Module Legacy.

Import Pathlib.

Inductive Uploader : Type :=
| GsapiUploader (bucket prefix : string)
| GsutilUploader (url : string)
| HttpUploader (url : string)
| ScpUploader (host : string) (path : Path).

(** The path expression of [simulate], lines 201-204. *)
Definition dest_path (camera obs_day_str obs_day : string) (seqnum : Z)
           (ccd : string) : Path :=
  joinpath (parse obs_day_str)
    [obs_day ++ Py.fmt_d 5 seqnum;
     camera ++ "_O_" ++ obs_day ++ "_" ++ Py.fmt_d 5 seqnum ++ "-" ++ ccd
     ++ ".fits"].

(** [d[k]] for the dict a comprehension builds over a list: the last
    binding of a key is the one that stays. *)
Fixpoint lookup (k : string) (d : list (string * Path)) : option Path :=
  match d with
  | [] => None
  | (k', v) :: r =>
      match lookup k r with
      | Some v' => Some v'
      | None => if String.eqb k k' then Some v else None
      end
  end.

Section WithEnv.

Variable env : Env.

Definition wait_until (hour minute : Z) : M unit :=
  t <- datetime_now env ;;
  when <- lift (Datetime.replace_hm_keep_us t hour minute)
               (ValueError "hour or minute out of range") ;;
  t' <- datetime_now env ;;
  let delay := when - t' in
  let delay := if delay <? 0
               then delay + 24 * 3600 * Datetime.us_per_second
               else delay in
  logging_info env (SleepingUntilMsg delay hour minute) ;;
  time_sleep env delay.

Definition exists_ (p : Path) : M bool :=
  s <- call env (CExists (str p)) ;;
  ret (negb (s =? 0)).

Definition find_input (dir : Path) (ccd : string) : M Path :=
  let input := joinpath dir [ccd ++ ".fits"] in
  found <- exists_ input ;;
  if found then ret input
  else
    let single_sensor :=
      let input := joinpath dir ["S00.fits"] in
      found <- exists_ input ;;
      if found then ret input
      else raise (RuntimeError ("No CCD file found for " ++ ccd)) in
    if Str.contains "-" ccd then
      '(raft, sensor) <- Harness.unpack2 (Str.splitn 1 "-" ccd) ;;
      let input := joinpath dir [sensor ++ ".fits"] in
      found <- exists_ input ;;
      if found then ret input else single_sensor
    else single_sensor.

Definition copy (source temp dest : Path) (compress : bool) : M Path :=
  call env (CMkdir (str (parent (truediv temp dest)))) ;;
  if compress then
    dest <- lift (with_suffix dest ".fits.gz") (ValueError "empty name") ;;
    logging_info env (CopyingMsg (str source) (str (truediv temp dest))) ;;
    call env (COpen (str source) "rb") ;;
    call env (COpen (str (truediv temp dest)) "wb") ;;
    subprocess_run env ["gzip"] (Some (str source))
                   (Some (str (truediv temp dest))) ;;
    ret dest
  else
    logging_info env (CopyingMsg (str source) (str (truediv temp dest))) ;;
    subprocess_run env
      ["cp " ++ str source ++ " " ++ str (truediv temp dest)]
      None None ;;
    ret dest.

Definition GsapiUploader_init (dest : string) : M Uploader :=
  call env (CImport "google.cloud.storage") ;;
  '(bucket, prefix) <-
     (if Str.contains "/" dest
      then Harness.unpack2 (Str.splitn 1 "/" dest)
      else ret (dest, "")) ;;
  logging_info env (GsapiOpenMsg bucket prefix) ;;
  call env (CBucket bucket) ;;
  ret (GsapiUploader bucket prefix).

Definition GsutilUploader_init (dest : string) : M Uploader :=
  logging_info env (GsutilSaveMsg dest) ;;
  ret (GsutilUploader dest).

Definition HttpUploader_init (dest : string) : M Uploader :=
  call env (CImport "requests") ;;
  logging_info env (HttpOpenMsg dest) ;;
  call env CSession ;;
  ret (HttpUploader dest).

Definition ScpUploader_init (dest : string) : M Uploader :=
  '(host, path) <- Harness.unpack2 (Str.split ":" dest) ;;
  logging_info env (ScpSaveMsg host path) ;;
  ret (ScpUploader host (parse path)).

Definition create (dest : string) : M Uploader :=
  logging_info env (CreatingMsg dest) ;;
  if Str.startswith "gsapi://" dest then
    GsapiUploader_init (Str.drop (String.length "gsapi://") dest)
  else if Str.startswith "gs://" dest then
    GsutilUploader_init dest
  else if (Str.startswith "https://" dest
           || Str.startswith "http://" dest)%bool then
    HttpUploader_init dest
  else if Str.contains ":" dest then
    ScpUploader_init dest
  else raise (RuntimeError ("Unrecognized URL " ++ dest)).

Definition transfer (self : Uploader) (temp_dir source : Path) : M unit :=
  let file := str (truediv temp_dir source) in
  match self with
  | GsapiUploader bucket prefix =>
      logging_info env (GsapiUploadMsg prefix (str source)) ;;
      let key := if String.eqb prefix "" then str source
                 else prefix ++ "/" ++ str source in
      call env (CUpload bucket key file) ;;
      ret tt
  | GsutilUploader url =>
      logging_info env (GsutilCpMsg url (str source)) ;;
      subprocess_run env
        ["gsutil/gsutil"; "cp"; file; url ++ "/" ++ str source]
        None None ;;
      ret tt
  | HttpUploader url =>
      logging_info env (HttpPutMsg url (str source)) ;;
      call env (COpen file "rb") ;;
      status <- call env (CPut (url ++ "/" ++ str source) file) ;;
      Harness.raise_for_status status
  | ScpUploader host path =>
      logging_info env
        (ScpDirMsg (str (truediv path (parent source))) (str source)) ;;
      call env (COpen file "rb") ;;
      subprocess_run env
        ["ssh"; host;
         "mkdir -p " ++ str (truediv path (parent source))
         ++ ";cat > " ++ str (truediv path source)] (Some file) None ;;
      ret tt
  end.

(** [for x in l: body(x)] *)
Fixpoint for_each {A} (l : list A) (body : A -> M unit) : M unit :=
  match l with
  | [] => ret tt
  | x :: r => body x ;; for_each r body
  end.

(** [{ccd: find_input(inputdir, ccd) for ccd in ccd_list}] *)
Fixpoint input_paths (inputdir : Path) (ccd_list : list string)
  : M (list (string * Path)) :=
  match ccd_list with
  | [] => ret []
  | ccd :: r =>
      p <- find_input inputdir ccd ;;
      d <- input_paths inputdir r ;;
      ret ((ccd, p) :: d)
  end.

Definition simulate (starttime : string) (inputdir tempdir : Path)
           (destination : string) (ccd_list : list string)
           (camera : string) (compress : bool) (interval numexp : Z)
  : M unit :=
  '(hr, min) <- Harness.unpack2 (Str.split ":" starttime) ;;
  seqnum_start <- Harness.py_int (hr ++ min) ;;
  input_path <- input_paths inputdir ccd_list ;;
  uploader <- create destination ;;
  h <- Harness.py_int hr ;;
  m <- Harness.py_int min ;;
  wait_until h m ;;
  now <- datetime_now env ;;
  let obs_day := Datetime.strftime_Ymd now in
  let obs_day_str := Datetime.strftime_Y_m_d now in
  Harness.with_tempdir env tempdir (fun temp_dir =>
    logging_info env (UsingTempMsg temp_dir) ;;
    let temp_path := parse temp_dir in
    for_range numexp (fun i =>
      let seqnum := seqnum_start + i in
      for_each ccd_list (fun ccd =>
        source_path <- lift (lookup ccd input_path)
                            (External "KeyError") ;;
        let dest := dest_path camera obs_day_str obs_day seqnum ccd in
        logging_info env
          (CopyingFromMsg (str source_path) (str (truediv temp_path dest))
                          compress) ;;
        dest <- copy source_path temp_path dest compress ;;
        logging_info env CopyDoneMsg ;;
        transfer uploader temp_path dest ;;
        logging_info env TransferDoneMsg) ;;
      time_sleep env (interval * Datetime.us_per_second))).

End WithEnv.

End Legacy.

(** ** apxfr/src/harness.py: main, the node number and the fan-out *)

Module Main.

(** [str(n)], as an f-string prints an integer. *)
Definition str_int (n : Z) : string :=
  (if n <? 0 then "-" else "") ++ Py.digits (Z.abs n).

(** [\d] on ASCII *)
Definition is_digit (a : ascii) : bool :=
  match Str.digit_val a with
  | Some _ => true
  | None => false
  end.

(** [\w] on ASCII: letters, digits and the underscore. *)
Definition is_word (a : ascii) : bool :=
  let n := nat_of_ascii a in
  (is_digit a || (Nat.leb 65 n && Nat.leb n 90)
   || (Nat.leb 97 n && Nat.leb n 122) || Nat.eqb n 95)%bool.

(** [$] matches at the end of the string and just before a newline that
    is its last character. *)
Definition at_end (s : string) : bool :=
  match s with
  | EmptyString => true
  | String "010" EmptyString => true
  | _ => false
  end.

(** The string from here on matches [\d+$]: its digits. *)
Fixpoint digits_to_end (s : string) : option string :=
  match s with
  | EmptyString => None
  | String c r =>
      if is_digit c then
        if at_end r then Some (String c EmptyString)
        else option_map (String c) (digits_to_end r)
      else None
  end.

(** [re.search(r'-(\d+)$', s)]: group 1 of the leftmost match. *)
Fixpoint search_dash_digits (s : string) : option string :=
  match s with
  | EmptyString => None
  | String c r =>
      if Ascii.eqb c "-" then
        match digits_to_end r with
        | Some d => Some d
        | None => search_dash_digits r
        end
      else search_dash_digits r
  end.

(** The string from here on matches [\w{5}$]: its five characters. *)
Definition word5_to_end (s : string) : option string :=
  match s with
  | String a (String b (String c (String d (String e r)))) =>
      if (is_word a && is_word b && is_word c && is_word d && is_word e
          && at_end r)%bool
      then Some (String a (String b (String c (String d
                   (String e EmptyString)))))
      else None
  | _ => None
  end.

(** [re.search(r'-(\w{5})$', s)]: group 1 of the leftmost match. *)
Fixpoint search_dash_word5 (s : string) : option string :=
  match s with
  | EmptyString => None
  | String c r =>
      if Ascii.eqb c "-" then
        match word5_to_end r with
        | Some x => Some x
        | None => search_dash_word5 r
        end
      else search_dash_word5 r
  end.

(** The digits a string starts with. *)
Fixpoint take_digits (s : string) : string :=
  match s with
  | EmptyString => EmptyString
  | String c r => if is_digit c then String c (take_digits r)
                  else EmptyString
  end.

(** [re.search(r'(\d+)', s)]: the first run of digits. *)
Fixpoint search_digits (s : string) : option string :=
  match s with
  | EmptyString => None
  | String c r => if is_digit c then Some (String c (take_digits r))
                  else search_digits r
  end.

(** The value of a base-36 digit: 0-9, then a-z or A-Z for 10-35. *)
Definition digit36_val (a : ascii) : option Z :=
  let n := nat_of_ascii a in
  if (Nat.leb 48 n && Nat.leb n 57)%bool then Some (Z.of_nat (n - 48))
  else if (Nat.leb 97 n && Nat.leb n 122)%bool then Some (Z.of_nat (n - 87))
  else if (Nat.leb 65 n && Nat.leb n 90)%bool then Some (Z.of_nat (n - 55))
  else None.

Fixpoint int36_digits (s : string) (acc : Z) (prev : bool) : option Z :=
  match s with
  | EmptyString => if prev then Some acc else None
  | String a t =>
      match digit36_val a with
      | Some d => int36_digits t (36 * acc + d) true
      | None =>
          if (Ascii.eqb a "_" && prev)%bool
          then int36_digits t acc false
          else None
      end
  end.

(** [int(s, 36)]; [None] is Python's [ValueError]. *)
Definition int36 (s : string) : option Z :=
  match Str.strip s with
  | String "+" t => int36_digits t 0 false
  | String "-" t => option_map Z.opp (int36_digits t 0 false)
  | t => int36_digits t 0 false
  end.

(** Lines 403-416: the node number of a host name; [None] is the
    [ValueError] of an [int] that does not parse. *)
Definition node_num (host_name : string) : option Z :=
  match search_dash_digits host_name with
  | Some d => Py.int d
  | None =>
      match search_dash_word5 host_name with
      | Some x => int36 x
      | None =>
          match search_digits host_name with
          | Some d => Py.int d
          | None => Some 0
          end
      end
  end.

(** Line 425: the line appended to /etc/hosts on a private network. *)
Definition hosts_line (node_num : Z) : string :=
  "199.36.153." ++ str_int (node_num mod 4 + 8) ++ " storage.googleapis.com".

(** [range(n)] *)
Definition range (n : Z) : list Z := map Z.of_nat (seq 0 (Z.to_nat n)).

(** Line 443: the name of the unit forked for [ccd]. *)
Definition ccd_name (node_num ccd : Z) : string :=
  str_int node_num ++ "-" ++ str_int ccd.

(** The command-line arguments [main] hands to every child. *)
Record Args : Type := mkArgs {
  destination : string;
  starttime : string;
  numexp : Z;
  ccds : Z;
  interval : Z;
  inputfile : Pathlib.Path;
  tempdir : Pathlib.Path;
  compress : bool
}.

(** Lines 439-455: what each forked child runs, in the order of the
    forks; every child is a process of its own. *)
Definition children (env : Env) (node_num : Z) (args : Args)
  : list (M unit) :=
  map (fun ccd =>
         Harness.simulate env (ccd_name node_num ccd) (starttime args)
                          (destination args) (interval args) (tempdir args)
                          (numexp args) (inputfile args) (compress args))
      (range (ccds args)).

End Main.

(** * The vocabulary of the properties *)

(** ** Traces and results *)

Module Effects.

Local Open Scope list_scope.

(** [emits m Q]: from any world, [m] never turns the clock back, it
    appends some calls [l] to the trace, and [Q] holds of its result and
    [l]. *)
Definition emits {A} (m : M A) (Q : Res A -> list Call -> Prop) : Prop :=
  forall w,
    clock w <= clock (snd (m w)) /\
    exists l, trace (snd (m w)) = trace w ++ l /\ Q (fst (m w)) l.

(** [quiet P m]: every call [m] makes satisfies [P]. *)
Definition quiet {A} (P : Call -> Prop) (m : M A) : Prop :=
  emits m (fun _ l => Forall P l).

(** [returns P m]: whatever [m] returns satisfies [P]. *)
Definition returns {A} (P : A -> Prop) (m : M A) : Prop :=
  forall w a, fst (m w) = Ok a -> P a.


(** The calls [simulate] makes before its loop. *)
Definition is_setup (c : Call) : bool :=
  match c with
  | CNow | CImport _ | CBucket _ | CDownload _ _ | CSession | CMkdtemp _ =>
      true
  | CLog (CreatingMsg _) | CLog (GsapiOpenMsg _ _) | CLog (IgnoredMsg _)
  | CLog (HttpOpenMsg _) | CLog (ScpSaveMsg _ _) | CLog (UsingTempMsg _) =>
      true
  | _ => false
  end.

(** The calls of the constructors [BotoUploader], [MinioUploader] and
    [BbcpUploader]. *)
Definition is_unused_backend (c : Call) : bool :=
  match c with
  | CImport m => String.eqb m "boto3" || String.eqb m "minio"
  | CClient _ | CPutObject _ _ => true
  | CLog (BotoOpenMsg _ _ _) | CLog (MinioOpenMsg _ _ _)
  | CLog (BbcpSaveMsg _ _) => true
  | _ => false
  end.

Definition setup_call (c : Call) : Prop :=
  is_setup c = true /\ is_unused_backend c = false.

(** The priming download of [GsapiUploader]. *)
Definition is_probe (c : Call) : bool :=
  match c with
  | CDownload _ _ => true
  | _ => false
  end.





(** The destinations a trace announces before staging ("Copying from ...
    to ..."), in order. *)
Definition announced (l : list Call) : list string :=
  flat_map (fun c => match c with
                     | CLog (CopyingFromMsg _ d _) => [d]
                     | _ => []
                     end) l.

End Effects.

(** ** Names of artifacts *)

Module Naming.

Import Str Pathlib Harness.

(** A string that is one path component as it stands. *)
Definition plain (s : string) : bool :=
  negb (contains "/" s) && keep_part s.

(** The file-name component of both harnesses: tag, day, sequence number,
    a separator and the sensor. *)
Definition file_name (tag od : string) (seq : Z) (sep ccd : string)
  : string :=
  tag ++ "_O_" ++ od ++ "_" ++ Py.fmt_d 5 seq ++ sep ++ ccd ++ ".fits".

(** Lines 357-359 and 374 on their own: the sequence number [simulate]
    derives for exposure [i] when it runs as unit [ccd_name], or [None]
    when the start time does not parse. *)
Definition sequence_number (ccd_name starttime : string) (i : Z) : option Z :=
  match Str.split ":" starttime with
  | [hour; minute] =>
      match Py.int (hour ++ minute) with
      | Some n => Some (n * 10 + i)
      | None => None
      end
  | _ => None
  end.

(** The artifact path as the specification writes it:
    [YYYY-MM-DD/YYYYMMDD<seq:05d>/<cameraTag>_O_YYYYMMDD_<seq:05d>-<sensorId>.fits]. *)
Definition spec_artifact_path (obs_day_str obs_day : string) (seq : Z)
           (camera sensor : string) : string :=
  obs_day_str ++ "/" ++ obs_day ++ Py.fmt_d 5 seq ++ "/" ++
  camera ++ "_O_" ++ obs_day ++ "_" ++ Py.fmt_d 5 seq ++ "-" ++ sensor
  ++ ".fits".

End Naming.

(** ** The schedule *)

Module Schedule.

(** The base instant of a waiter built at instant [t]. *)
Definition base_of (t hour minute : Z) : Z :=
  t - Datetime.time_of_day t
  + (hour * 3600 + minute * 60) * Datetime.us_per_second.

End Schedule.

(** ** The dispatch on schemes *)

Module Dispatch.

Import Harness.

(** The scheme prefixes [create] tests for, in its order. *)
Definition schemes : list string :=
  ["gsapi://"; "boto://"; "minio://"; "https://"; "http://"; "bbcp://";
   "scp://"].

Definition recognized (dest : string) : bool :=
  existsb (fun p => Str.startswith p dest) schemes.

Definition class_name (u : Uploader) : string :=
  match u with
  | GsapiUploader _ _ => "GsapiUploader"
  | BotoUploader _ _ => "BotoUploader"
  | MinioUploader _ _ _ => "MinioUploader"
  | HttpUploader _ => "HttpUploader"
  | BbcpUploader _ _ => "BbcpUploader"
  | ScpUploader _ _ => "ScpUploader"
  end.

(** The class each scheme prefix stands for. *)
Definition scheme_class : list (string * string) :=
  [("gsapi://", "GsapiUploader"); ("boto://", "GsapiUploader");
   ("minio://", "GsapiUploader"); ("https://", "HttpUploader");
   ("http://", "HttpUploader"); ("bbcp://", "HttpUploader");
   ("scp://", "ScpUploader")].

End Dispatch.

(** ** Concrete runs *)

Module Runs.

Import Pathlib.

(** 2024-01-02 (ordinal 738887) at 09:59:50. *)
Definition t0 : Z :=
  738886 * Datetime.us_per_day + (9 * 3600 + 59 * 60 + 50) * 1000000.

Definition w0 : World := mkWorld t0 [].

Definition tmp_under (t : Z) (dir : string) : string := dir ++ "/tmpabc".

(** Every call completes at once with status 0. *)
Definition env_ok : Env :=
  mkEnv (fun _ _ => Done 0) (fun _ _ => 0%N) tmp_under.

(** The web server answers every PUT with status 500. *)
Definition env_http500 : Env :=
  mkEnv (fun _ c => match c with CPut _ _ => Done 500 | _ => Done 0 end)
        (fun _ _ => 0%N) tmp_under.

(** [fpack] runs and exits with status 1. *)
Definition env_fpack_fails : Env :=
  mkEnv (fun _ c => match c with
                    | CRun (prog :: _) _ _ =>
                        if String.eqb prog "fpack" then Done 1 else Done 0
                    | _ => Done 0
                    end)
        (fun _ _ => 0%N) tmp_under.

(** The priming download raises. *)
Definition env_probe_fails : Env :=
  mkEnv (fun _ c => match c with
                    | CDownload _ _ => Fails "NotFound"
                    | _ => Done 0
                    end)
        (fun _ _ => 0%N) tmp_under.


Definition tempdir : Path := parse "/tmp".
Definition inputfile : Path := parse "./data/S00.fits".

End Runs.

(** ** The work of a run *)

Module Ledger.

Import Pathlib Harness.

Local Open Scope list_scope.

(** The calls that only tell or take the time: the readings of the clock,
    the sleeps, and the logs of the waiter and of [log_timing]. *)
Definition is_timing (c : Call) : bool :=
  match c with
  | CNow | CSleep _ => true
  | CLog (LateMsg _ _ _) | CLog (SleepingMsg _ _ _)
  | CLog (StartMsg _) | CLog (EndMsg _ _) => true
  | _ => false
  end.

(** The work of a trace: its calls other than those of timing, in
    order. *)
Definition work (l : list Call) : list Call :=
  filter (fun c => negb (is_timing c)) l.

(** The path [copy] hands on for [dest]. *)
Definition delivered (compress : bool) (dest : Path) : Path :=
  if compress then
    match with_suffix dest ".fits.fz" with
    | Some p => p
    | None => dest
    end
  else dest.

(** The work of a staging that goes through: the directory, the message,
    [cp] and, under compression, [fpack] on the staged file. *)
Definition copy_script (source temp dest : Path) (compress : bool)
  : list Call :=
  [CMkdir (str (parent (truediv temp dest)));
   CLog (CopyingMsg (str source) (str (truediv temp dest)));
   CRun ["cp"; str source; str (truediv temp dest)] None None]
  ++ (if compress
      then [CLog (CompressingMsg (str (truediv temp dest)));
            CRun ["fpack"; str (truediv temp dest)] None None]
      else []).

(** The work of a transfer that goes through, for each class of
    uploader: the message and the upload of the staged file under the
    name of the relative path [source]. *)
Definition transfer_script (uploader : Uploader) (temp source : Path)
  : list Call :=
  let file := str (truediv temp source) in
  match uploader with
  | GsapiUploader bucket prefix =>
      [CLog (GsapiUploadMsg prefix (str source));
       CUpload bucket
               (if String.eqb prefix "" then str source
                else prefix ++ "/" ++ str source)%string
               file]
  | BotoUploader bucket prefix =>
      [CLog (BotoUploadMsg prefix (str source));
       CUpload bucket (prefix ++ "/" ++ str source)%string file]
  | MinioUploader host bucket prefix =>
      [CLog (MinioUploadMsg prefix (str source));
       CUpload bucket (prefix ++ "/" ++ str source)%string file]
  | HttpUploader url =>
      [CLog (HttpPutMsg url (str source));
       COpen file "rb";
       CPut (url ++ "/" ++ str source)%string file]
  | BbcpUploader host path =>
      [CLog (BbcpDirMsg (str (truediv path (parent source))) (str source));
       CRun ["bbcp"; "-A"; str (truediv path source);
             (host ++ ":" ++ str (truediv path source))%string] None None]
  | ScpUploader host path =>
      [CLog (ScpDirMsg (str (truediv path (parent source))) (str source));
       COpen file "rb";
       CRun ["ssh"; host;
             ("mkdir -p " ++ str (truediv path (parent source))
              ++ ";cat > " ++ str (truediv path source))%string]
            (Some file) None]
  end.

(** The work of exposure [i] when it goes through, in a run whose day
    strings are those of the instant [t] and whose first sequence number
    is [s0]: the announcement, the staging and the transfer of the one
    artifact named for the day of [t] and the number [s0 + i]. *)
Definition exposure_script (uploader : Uploader) (ccd_name : string)
           (temp inputfile : Path) (compress : bool) (t s0 i : Z)
  : list Call :=
  let dest := dest_path (Datetime.strftime_Y_m_d t)
                        (Datetime.strftime_Ymd t) (s0 + i) ccd_name in
  CLog (CopyingFromMsg (str inputfile) (str (truediv temp dest)) compress)
  :: copy_script inputfile temp dest compress
  ++ transfer_script uploader temp (delivered compress dest).

(** How far a computation got with the work [script]: it returned having
    done all of it, or it raised having done a first part of it. *)
Definition progress {A} (script : list Call) (good : A -> Prop)
           (r : Res A) (l : list Call) : Prop :=
  (exists a, r = Ok a /\ good a /\ work l = script) \/
  (exists e tail, r = Raise e /\ script = work l ++ tail).

(** The work of a loop over [numexp] exposures, [script i] being the work
    of exposure [i]: all the work of the exposures [0 .. k-1], in this
    order, then either nothing more, with [k = numexp], or a first part of
    the work of exposure [k] and an exception. *)
Definition loop_ledger (script : Z -> list Call) (numexp : Z)
           (r : Res unit) (l : list Call) : Prop :=
  exists k rest,
    (k <= Z.to_nat numexp)%nat /\
    work l = flat_map script (Main.range (Z.of_nat k)) ++ rest /\
    ((k = Z.to_nat numexp /\ rest = []) \/
     ((k < Z.to_nat numexp)%nat /\ (exists e, r = Raise e) /\
      exists tail, script (Z.of_nat k) = rest ++ tail)).





End Ledger.

(** ** Further observations on runs *)

Module Observations.

Import Pathlib Harness.

(** The clean-up of the temporary directory. *)
Definition is_cleanup (c : Call) : bool :=
  match c with
  | CCleanup _ => true
  | _ => false
  end.

(** The calls of [simulate] before it asks for its temporary directory. *)
Definition is_preparation (c : Call) : bool :=
  match c with
  | CNow | CImport _ | CBucket _ | CDownload _ _ | CSession => true
  | CLog (CreatingMsg _) | CLog (GsapiOpenMsg _ _) | CLog (IgnoredMsg _)
  | CLog (HttpOpenMsg _) | CLog (ScpSaveMsg _ _) => true
  | _ => false
  end.

(** The calls of one exposure: neither the setting up nor the cleaning up
    of the temporary directory. *)
Definition is_exposure_call (c : Call) : bool :=
  match c with
  | CCleanup _ | CMkdtemp _ | CLog (UsingTempMsg _) => false
  | _ => true
  end.

(** The indices [i], [i + 1], ... of [n] turns of a loop. *)
Fixpoint indices (i : Z) (n : nat) : list Z :=
  match n with
  | O => []
  | S k => i :: indices (i + 1) k
  end.

(** A string of decimal digits only. *)
Fixpoint all_digits (s : string) : bool :=
  match s with
  | EmptyString => true
  | String c r => Main.is_digit c && all_digits r
  end.

(** A string of word characters only. *)
Fixpoint all_word (s : string) : bool :=
  match s with
  | EmptyString => true
  | String c r => Main.is_word c && all_word r
  end.

(** The prefixes the older [create] looks for before it looks for a
    colon. *)
Definition legacy_schemes : list string :=
  ["gsapi://"; "gs://"; "https://"; "http://"].

Definition legacy_recognized (dest : string) : bool :=
  existsb (fun p => Str.startswith p dest) legacy_schemes.

(** A probe of the file system and nothing else. *)
Definition is_exists (c : Call) : Prop :=
  match c with
  | CExists _ => True
  | _ => False
  end.

(** Every file asked for exists, every call completes at once. *)
Definition env_files : Env :=
  mkEnv (fun _ c => match c with CExists _ => Done 1 | _ => Done 0 end)
        (fun _ _ => 0%N) Runs.tmp_under.

End Observations.

(** * Properties *)

Import Effects Naming Schedule Dispatch.

(** ** Strings and paths *)

Module StrFacts.

Import Str.

Lemma contains_app c a b :
  contains c (a ++ b) = (contains c a || contains c b)%bool.
Proof.
  induction a as [|x a IH]; simpl; [reflexivity|].
  rewrite IH. now rewrite orb_assoc.
Qed.

Lemma split_nonempty c s : split c s <> [].
Proof.
  destruct s as [|a t]; simpl; [discriminate|].
  destruct (Ascii.eqb a c); [discriminate|].
  destruct (split c t); discriminate.
Qed.

Lemma split_plain c s : contains c s = false -> split c s = [s].
Proof.
  induction s as [|a t IH]; simpl; intros H; [reflexivity|].
  apply orb_false_iff in H as [Ha Ht].
  rewrite Ha, (IH Ht). reflexivity.
Qed.

Lemma split_app c a b :
  contains c a = false -> split c (a ++ String c b) = a :: split c b.
Proof.
  induction a as [|x a IH]; simpl; intros H.
  - now rewrite Ascii.eqb_refl.
  - apply orb_false_iff in H as [Hx Ha].
    rewrite Hx, (IH Ha). reflexivity.
Qed.

Lemma splitn1_cut c s :
  contains c s = true -> exists a b, splitn 1 c s = [a; b].
Proof.
  induction s as [|x t IH]; intros H; [discriminate|].
  cbn [contains] in H. cbn [splitn].
  destruct (Ascii.eqb x c) eqn:E.
  - exists EmptyString, t. now destruct t.
  - destruct (IH H) as (a & b & Hab).
    rewrite Hab. now exists (String x a), b.
Qed.

Lemma startswith_sep_plain c s n :
  contains c s = false ->
  startswith (String c EmptyString) (drop n s) = false.
Proof.
  revert n. induction s as [|x t IH]; intros n H.
  - destruct n; reflexivity.
  - simpl in H. apply orb_false_iff in H as [Hx Ht].
    destruct n as [|k]; [|exact (IH k Ht)].
    simpl. now rewrite Hx.
Qed.

Lemma length_app a b :
  String.length (a ++ b) = (String.length a + String.length b)%nat.
Proof. induction a; simpl; congruence. Qed.

Lemma take_app a b : take (String.length a) (a ++ b) = a.
Proof. induction a; simpl; [destruct b|]; congruence. Qed.

Lemma drop_app a b : drop (String.length a) (a ++ b) = b.
Proof. induction a; simpl; congruence. Qed.

Lemma app_assoc (a b c : string) : (a ++ b) ++ c = a ++ b ++ c.
Proof. induction a; simpl; congruence. Qed.

Lemma app_empty_r (a : string) : a ++ "" = a.
Proof. induction a; simpl; congruence. Qed.

Lemma rfind_plain c s : contains c s = false -> rfind c s = -1.
Proof.
  induction s as [|x t IH]; simpl; intros H; [reflexivity|].
  apply orb_false_iff in H as [Hx Ht].
  rewrite (IH Ht), Hx. reflexivity.
Qed.

Lemma rfind_last c a b :
  contains c b = false ->
  rfind c (a ++ String c b) = Z.of_nat (String.length a).
Proof.
  intros Hb. induction a as [|x a IH].
  - simpl. rewrite (rfind_plain _ _ Hb). simpl.
    now rewrite Ascii.eqb_refl.
  - cbn [append rfind String.length]. rewrite IH.
    destruct (0 <=? Z.of_nat (String.length a)) eqn:E.
    + rewrite Nat2Z.inj_succ. lia.
    + apply Z.leb_gt in E. lia.
Qed.

End StrFacts.

Module PathFacts.

Import Str StrFacts Pathlib.

Lemma keep_part_long s : (2 <= String.length s)%nat -> keep_part s = true.
Proof.
  destruct s as [|a [|b t]]; simpl; try lia. intros _.
  unfold keep_part. simpl. now destruct (Ascii.eqb a ".").
Qed.

Lemma plain_spec s :
  plain s = true -> contains "/" s = false /\ keep_part s = true.
Proof.
  unfold plain. intros H. apply andb_true_iff in H as [H1 H2].
  apply negb_true_iff in H1. now split.
Qed.

Lemma plain_nonempty s : plain s = true -> s <> "".
Proof. intros H ->. discriminate. Qed.

Lemma startswith_sep_false s :
  contains "/" s = false -> startswith "/" s = false.
Proof. intros H. exact (startswith_sep_plain "/" s 0 H). Qed.

Lemma lstrip_sep_plain s : contains "/" s = false -> lstrip_sep s = s.
Proof.
  destruct s as [|a t]; [reflexivity|]. simpl. intros H.
  apply orb_false_iff in H as [Ha _].
  destruct a as [[] [] [] [] [] [] [] []]; try reflexivity.
  discriminate.
Qed.

Lemma lstrip_sep_head a s :
  plain a = true -> lstrip_sep (a ++ s) = a ++ s.
Proof.
  intros H. destruct (plain_spec _ H) as [Hc _].
  destruct a as [|x t]; [discriminate|]. simpl in *.
  apply orb_false_iff in Hc as [Hx _].
  destruct x as [[] [] [] [] [] [] [] []]; try reflexivity.
  discriminate.
Qed.

Lemma root_of_head a s : plain a = true -> root_of (a ++ s) = "".
Proof.
  intros H. destruct (plain_spec _ H) as [Hc _].
  destruct a as [|x t]; [discriminate|]. simpl in *.
  apply orb_false_iff in Hc as [Hx _].
  unfold root_of. simpl. now rewrite Hx.
Qed.

Lemma parse_plain a : plain a = true -> parse a = mkPath "" [a].
Proof.
  intros H. destruct (plain_spec _ H) as [Hc Hk].
  unfold parse. rewrite <- (app_empty_r a) at 1.
  rewrite (root_of_head a "" H), (lstrip_sep_plain _ Hc).
  rewrite (split_plain _ _ Hc). simpl. now rewrite Hk.
Qed.

Lemma drop_app_plus x b k :
  drop (String.length x + k) (x ++ b) = drop k b.
Proof. induction x; simpl; congruence. Qed.

(** Joining onto a path whose last piece is plain and not empty. *)
Lemma posix_join_plain x a b :
  a <> "" -> contains "/" a = false -> contains "/" b = false ->
  posix_join (x ++ a) b = (x ++ a) ++ "/" ++ b.
Proof.
  intros Ha Hca Hcb. unfold posix_join.
  rewrite (startswith_sep_false _ Hcb).
  rewrite length_app.
  replace (String.length x + String.length a - 1)%nat
    with (String.length x + (String.length a - 1))%nat
    by (destruct a; [congruence|simpl; lia]).
  rewrite drop_app_plus, (startswith_sep_plain "/" a _ Hca).
  destruct (x ++ a) eqn:E; [|reflexivity].
  destruct x; [simpl in E; congruence|discriminate].
Qed.

(** Three plain segments make a relative path of three components. *)
Lemma of_segments3 a b c :
  plain a = true -> plain b = true -> plain c = true ->
  of_segments [a; b; c] = mkPath "" [a; b; c].
Proof.
  intros Ha Hb Hc.
  destruct (plain_spec _ Ha) as [Hca Hka].
  destruct (plain_spec _ Hb) as [Hcb Hkb].
  destruct (plain_spec _ Hc) as [Hcc Hkc].
  unfold of_segments. cbn [fold_left].
  assert (E1 : posix_join "" a = a).
  { unfold posix_join. rewrite (startswith_sep_false _ Hca).
    now destruct a. }
  rewrite E1.
  pose proof (posix_join_plain "" a b (plain_nonempty _ Ha) Hca Hcb) as E2.
  cbn [append] in E2. rewrite E2.
  replace (a ++ String "/" b) with ((a ++ "/") ++ b)
    by (now rewrite app_assoc).
  rewrite (posix_join_plain (a ++ "/") b c (plain_nonempty _ Hb) Hcb Hcc).
  unfold parse. rewrite !app_assoc.
  rewrite (root_of_head a _ Ha), (lstrip_sep_head a _ Ha).
  change ("/" ++ b ++ "/" ++ c) with (String "/" (b ++ String "/" c)).
  rewrite (split_app _ _ _ Hca), (split_app _ _ _ Hcb).
  rewrite (split_plain _ _ Hcc). simpl. now rewrite Hka, Hkb, Hkc.
Qed.

Lemma joinpath2_plain a b c :
  plain a = true -> plain b = true -> plain c = true ->
  joinpath (parse a) [b; c] = mkPath "" [a; b; c].
Proof.
  intros Ha Hb Hc. unfold joinpath. rewrite (parse_plain a Ha).
  assert (E : str (mkPath "" [a]) = a).
  { unfold str. simpl. reflexivity. }
  rewrite E. now apply of_segments3.
Qed.

Lemma str_rel3 a b c : str (mkPath "" [a; b; c]) = a ++ "/" ++ b ++ "/" ++ c.
Proof. reflexivity. Qed.

(** Replacing the suffix of a name that ends in [.fits]. *)
Lemma with_suffix_fits r init x ext :
  x <> "" -> contains "/" ext = false ->
  with_suffix (mkPath r (init ++ [x ++ ".fits"])) (".fits" ++ ext)
  = Some (mkPath r (init ++ [x ++ ".fits" ++ ext])).
Proof.
  intros Hx Hext. unfold with_suffix.
  assert (Hc : contains "/" (".fits" ++ ext) = false).
  { rewrite contains_app, Hext. reflexivity. }
  rewrite Hc. cbn [startswith append].
  assert (Hn : name (mkPath r (init ++ [x ++ ".fits"])) = x ++ ".fits").
  { unfold name. cbn [tail]. apply last_last. }
  assert (Hs : suffix (mkPath r (init ++ [x ++ ".fits"])) = ".fits").
  { unfold suffix. rewrite Hn.
    change (x ++ ".fits") with (x ++ String "." "fits").
    rewrite rfind_last by reflexivity.
    unfold len. rewrite length_app. cbn [String.length].
    rewrite Nat2Z.id, drop_app.
    destruct x as [|c t]; [congruence|]. cbn [String.length].
    replace ((0 <? Z.of_nat (S (String.length t))) &&
             (Z.of_nat (S (String.length t))
              <? Z.of_nat (S (String.length t) + 5) - 1))%bool
      with true; [reflexivity|].
    symmetry. apply andb_true_iff. split; apply Z.ltb_lt; lia. }
  rewrite Hn, Hs.
  cbn [negb andb orb String.eqb Ascii.eqb Bool.eqb].
  assert (Hne : String.eqb (x ++ ".fits") "" = false).
  { destruct x; [congruence|reflexivity]. }
  rewrite Hne. cbn [String.eqb]. cbn [tail root].
  rewrite removelast_last.
  rewrite length_app. cbn [String.length].
  replace (String.length x + 5 - 5)%nat with (String.length x) by lia.
  rewrite take_app. reflexivity.
Qed.

End PathFacts.

Module FmtFacts.

Import Str StrFacts PathFacts.

Lemma uint_plain d : contains "/" (NilEmpty.string_of_uint d) = false.
Proof. induction d; simpl; auto. Qed.

Lemma digits_plain n : contains "/" (Py.digits n) = false.
Proof.
  unfold Py.digits, NilZero.string_of_uint.
  destruct (N.to_uint (Z.to_N n)); try apply uint_plain. reflexivity.
Qed.

Lemma zeros_plain k : contains "/" (Py.zeros k) = false.
Proof. induction k; simpl; auto. Qed.

Lemma zeros_length k : String.length (Py.zeros k) = k.
Proof. induction k; simpl; congruence. Qed.

Lemma fmt_d_plain w n : contains "/" (Py.fmt_d w n) = false.
Proof.
  unfold Py.fmt_d. rewrite !contains_app, zeros_plain, digits_plain.
  now destruct (n <? 0).
Qed.

Lemma fmt_d_length w n : (w <= String.length (Py.fmt_d w n))%nat.
Proof.
  unfold Py.fmt_d. rewrite !length_app, zeros_length. lia.
Qed.

Lemma strftime_Ymd_plain t : contains "/" (Datetime.strftime_Ymd t) = false.
Proof.
  unfold Datetime.strftime_Ymd.
  destruct (Datetime.ord2ymd _) as [[y m] d].
  now rewrite !contains_app, !fmt_d_plain.
Qed.

Lemma strftime_Y_m_d_plain t : plain (Datetime.strftime_Y_m_d t) = true.
Proof.
  unfold Datetime.strftime_Y_m_d, plain.
  destruct (Datetime.ord2ymd _) as [[y m] d].
  apply andb_true_iff. split.
  - rewrite !contains_app, !fmt_d_plain. reflexivity.
  - apply keep_part_long. rewrite length_app.
    pose proof (fmt_d_length 4 y). lia.
Qed.

(** The directory component: the day followed by the sequence number. *)
Lemma exposure_dir_plain od n :
  contains "/" od = false -> plain (od ++ Py.fmt_d 5 n) = true.
Proof.
  intros H. unfold plain. apply andb_true_iff. split.
  - now rewrite contains_app, H, fmt_d_plain.
  - apply keep_part_long. rewrite length_app.
    pose proof (fmt_d_length 5 n). lia.
Qed.

End FmtFacts.

(** ** What a computation adds to the trace *)

Module RunFacts.

Local Open Scope list_scope.

Lemma emits_conseq {A} (m : M A) (Q Q' : Res A -> list Call -> Prop) :
  emits m Q -> (forall r l, Q r l -> Q' r l) -> emits m Q'.
Proof.
  intros H HQ w. destruct (H w) as (Hc & l & E & HQl).
  split; [exact Hc|]. exists l. auto.
Qed.

Lemma emits_ret {A} (a : A) (Q : Res A -> list Call -> Prop) :
  Q (Ok a) [] -> emits (ret a) Q.
Proof.
  intros H w. split; [simpl; lia|]. exists []. simpl.
  now rewrite app_nil_r.
Qed.

Lemma emits_raise {A} e (Q : Res A -> list Call -> Prop) :
  Q (Raise e) [] -> emits (raise e) Q.
Proof.
  intros H w. split; [simpl; lia|]. exists []. simpl.
  now rewrite app_nil_r.
Qed.

Lemma emits_bind {A B} (m : M A) (f : A -> M B) Q :
  emits m (fun r l1 =>
             match r with
             | Ok a => emits (f a) (fun r2 l2 => Q r2 (l1 ++ l2))
             | Raise e => Q (Raise e) l1
             end) ->
  emits (bind m f) Q.
Proof.
  intros H w. destruct (H w) as (Hc1 & l1 & E1 & H1). unfold bind.
  destruct (m w) as [[a|e] w1]; simpl in *.
  - destruct (H1 w1) as (Hc2 & l2 & E2 & H2). split; [lia|].
    exists (l1 ++ l2). now rewrite E2, E1, app_assoc.
  - split; [exact Hc1|]. now exists l1.
Qed.

Lemma emits_lift {A} (o : option A) e (Q : Res A -> list Call -> Prop) :
  (forall a, o = Some a -> Q (Ok a) []) -> (o = None -> Q (Raise e) []) ->
  emits (lift o e) Q.
Proof.
  intros H1 H2. destruct o; [apply emits_ret|apply emits_raise]; auto.
Qed.

Lemma emits_try_finally {A} (body : M A) (fin : M unit) Q :
  emits body (fun r l1 =>
                emits fin (fun r2 l2 =>
                             match r2 with
                             | Ok _ => Q r (l1 ++ l2)
                             | Raise e => Q (Raise e) (l1 ++ l2)
                             end)) ->
  emits (try_finally body fin) Q.
Proof.
  intros H w. destruct (H w) as (Hc1 & l1 & E1 & H1). unfold try_finally.
  destruct (body w) as [r w1]; simpl in *.
  destruct (H1 w1) as (Hc2 & l2 & E2 & H2).
  destruct (fin w1) as [[u|e] w2]; simpl in *;
    (split; [lia|]); exists (l1 ++ l2); now rewrite E2, E1, app_assoc.
Qed.

Lemma emits_try_except {A} (body : M A) (handler : exn -> M A) Q :
  emits body (fun r l1 =>
                match r with
                | Ok a => Q (Ok a) l1
                | Raise e => emits (handler e)
                                   (fun r2 l2 => Q r2 (l1 ++ l2))
                end) ->
  emits (try_except body handler) Q.
Proof.
  intros H w. destruct (H w) as (Hc1 & l1 & E1 & H1). unfold try_except.
  destruct (body w) as [[a|e] w1]; simpl in *.
  - split; [exact Hc1|]. now exists l1.
  - destruct (H1 w1) as (Hc2 & l2 & E2 & H2). split; [lia|].
    exists (l1 ++ l2). now rewrite E2, E1, app_assoc.
Qed.

Section Primitives.

Variable env : Env.

Lemma emits_call c (Q : Res Z -> list Call -> Prop) :
  (forall s, Q (Ok s) [c]) ->
  (forall what, Q (Raise (External what)) [c]) ->
  emits (call env c) Q.
Proof.
  intros H1 H2 w. unfold call.
  destruct (answer env (clock w) c); simpl;
    (split; [lia|]); exists [c]; auto.
Qed.

Lemma emits_now (Q : Res Z -> list Call -> Prop) :
  (forall t, Q (Ok t) [CNow]) -> emits (datetime_now env) Q.
Proof. intros H w. simpl. split; [lia|]. exists [CNow]. auto. Qed.

Lemma emits_log m (Q : Res unit -> list Call -> Prop) :
  Q (Ok tt) [CLog m] -> emits (logging_info env m) Q.
Proof. intros H w. simpl. split; [lia|]. exists [CLog m]. auto. Qed.

Lemma emits_sleep d (Q : Res unit -> list Call -> Prop) :
  Q (Ok tt) [CSleep d] -> (forall e, Q (Raise e) []) ->
  emits (time_sleep env d) Q.
Proof.
  intros H1 H2 w. unfold time_sleep. destruct (d <? 0) eqn:E.
  - simpl. split; [lia|]. exists []. rewrite app_nil_r. auto.
  - apply Z.ltb_ge in E. destruct (d <=? sleep_max).
    + simpl. split; [lia|]. exists [CSleep d]. auto.
    + destruct (d <=? sleep_wrap); simpl; (split; [lia|]); exists [];
        rewrite app_nil_r; auto.
Qed.

End Primitives.

(** *** Rules for [quiet] *)

Lemma quiet_ret {A} P (a : A) : quiet P (ret a).
Proof. apply emits_ret. constructor. Qed.

Lemma quiet_raise {A} P e : quiet P (@raise A e).
Proof. apply emits_raise. constructor. Qed.

Lemma quiet_lift {A} P (o : option A) e : quiet P (lift o e).
Proof. apply emits_lift; constructor. Qed.

Lemma quiet_bind {A B} P (m : M A) (f : A -> M B) :
  quiet P m -> (forall a, quiet P (f a)) -> quiet P (bind m f).
Proof.
  intros Hm Hf. apply emits_bind. eapply emits_conseq; [exact Hm|].
  intros [a|e] l Hl; [|exact Hl].
  eapply emits_conseq; [exact (Hf a)|].
  intros r2 l2 Hl2. apply Forall_app. now split.
Qed.

Lemma quiet_try_finally {A} P (body : M A) fin :
  quiet P body -> quiet P fin -> quiet P (try_finally body fin).
Proof.
  intros Hb Hf. apply emits_try_finally.
  eapply emits_conseq; [exact Hb|]. intros r l Hl.
  eapply emits_conseq; [exact Hf|]. intros r2 l2 Hl2.
  destruct r2; apply Forall_app; now split.
Qed.

Lemma quiet_try_except {A} P (body : M A) handler :
  quiet P body -> (forall e, quiet P (handler e)) ->
  quiet P (try_except body handler).
Proof.
  intros Hb Hh. apply emits_try_except.
  eapply emits_conseq; [exact Hb|]. intros [a|e] l Hl; [exact Hl|].
  eapply emits_conseq; [exact (Hh e)|]. intros r2 l2 Hl2.
  apply Forall_app. now split.
Qed.

Lemma quiet_call env P c : P c -> quiet P (call env c).
Proof. intros H. apply emits_call; intros; now constructor. Qed.

Lemma quiet_now env P : P CNow -> quiet P (datetime_now env).
Proof. intros H. apply emits_now; intros; now constructor. Qed.

Lemma quiet_log env P m : P (CLog m) -> quiet P (logging_info env m).
Proof. intros H. apply emits_log; now constructor. Qed.

Lemma quiet_sleep env P d : P (CSleep d) -> quiet P (time_sleep env d).
Proof. intros H. apply emits_sleep; intros; now constructor. Qed.

Lemma quiet_for_from P body n : forall i,
  (forall j, i <= j < i + Z.of_nat n -> quiet P (body j)) ->
  quiet P (for_from n i body).
Proof.
  induction n as [|n IH]; intros i H; cbn [for_from].
  - apply quiet_ret.
  - apply quiet_bind; [apply H; lia|]. intros _. apply IH.
    intros j Hj. apply H. lia.
Qed.

Lemma quiet_for_range P body n :
  (forall j, 0 <= j < n -> quiet P (body j)) ->
  quiet P (for_range n body).
Proof.
  intros H. apply quiet_for_from. intros j Hj. apply H. lia.
Qed.

Lemma quiet_with_tempdir {A} env P dir (body : string -> M A) :
  P (CMkdtemp (Pathlib.str dir)) ->
  (forall d, P (CCleanup d)) ->
  (forall d, quiet P (body d)) ->
  quiet P (Harness.with_tempdir env dir body).
Proof.
  intros H1 H2 H3 w. unfold Harness.with_tempdir.
  apply quiet_bind; [now apply quiet_call|]. intros _.
  apply quiet_try_finally; [apply H3|].
  apply quiet_bind; [now apply quiet_call|]. intros _. apply quiet_ret.
Qed.

Lemma quiet_weaken {A} (P P' : Call -> Prop) (m : M A) :
  (forall c, P c -> P' c) -> quiet P m -> quiet P' m.
Proof.
  intros HP H. eapply emits_conseq; [exact H|]. intros r l Hl.
  eapply Forall_impl; [exact HP|exact Hl].
Qed.

(** What [emits] says about one run. *)
Lemma emits_run {A} (m : M A) Q w r w' :
  emits m Q -> m w = (r, w') ->
  clock w <= clock w' /\ exists l, trace w' = trace w ++ l /\ Q r l.
Proof.
  intros H E. destruct (H w) as (Hc & l & E1 & HQ). rewrite E in *.
  split; [exact Hc|]. now exists l.
Qed.

End RunFacts.

(** One step of a proof that a computation is [quiet]: the rule for the
    construct at the head of the goal. *)
Ltac quiet_step :=
  match goal with
  | |- Effects.quiet _ (bind _ _) => apply RunFacts.quiet_bind; [|intros ?]
  | |- Effects.quiet _ (ret _) => apply RunFacts.quiet_ret
  | |- Effects.quiet _ (raise _) => apply RunFacts.quiet_raise
  | |- Effects.quiet _ (lift _ _) => apply RunFacts.quiet_lift
  | |- Effects.quiet _ (call _ _) => apply RunFacts.quiet_call
  | |- Effects.quiet _ (subprocess_run _ _ _ _) => apply RunFacts.quiet_call
  | |- Effects.quiet _ (datetime_now _) => apply RunFacts.quiet_now
  | |- Effects.quiet _ (time_time _) => apply RunFacts.quiet_now
  | |- Effects.quiet _ (logging_info _ _) => apply RunFacts.quiet_log
  | |- Effects.quiet _ (time_sleep _ _) => apply RunFacts.quiet_sleep
  | |- Effects.quiet _ (try_finally _ _) => apply RunFacts.quiet_try_finally
  | |- Effects.quiet _ (try_except _ _) =>
      apply RunFacts.quiet_try_except; [|intros ?]
  | |- Effects.quiet _ (log_timing _ _ _) => unfold log_timing
  | |- Effects.quiet _ (Harness.unpack2 _) => unfold Harness.unpack2
  | |- Effects.quiet _ (Harness.unpack3 _) => unfold Harness.unpack3
  | |- Effects.quiet _ (Harness.py_int _) => unfold Harness.py_int
  | |- Effects.quiet _ (Harness.raise_for_status _) =>
      unfold Harness.raise_for_status
  | |- Effects.quiet _ (if ?b then _ else _) => destruct b
  | |- Effects.quiet _ (match ?x with _ => _ end) => destruct x
  end.

Ltac quiet_steps := repeat quiet_step.

(** ** The harness: what a run consists of *)

Module HarnessFacts.

Import Pathlib Harness RunFacts.

Lemma create_quiet env dest : quiet setup_call (create env dest).
Proof.
  unfold create, GsapiUploader_init, HttpUploader_init, ScpUploader_init.
  quiet_steps; split; reflexivity.
Qed.

Lemma Waiter_init_quiet env h m i : quiet setup_call (Waiter_init env h m i).
Proof. unfold Waiter_init. quiet_steps; split; reflexivity. Qed.

Lemma bind_inv {A B} (m : M A) (f : A -> M B) w r w' :
  bind m f w = (r, w') ->
  (exists a w1, m w = (Ok a, w1) /\ f a w1 = (r, w')) \/
  (exists e, m w = (Raise e, w') /\ r = Raise e).
Proof.
  unfold bind. destruct (m w) as [[a|e] w1]; intros H.
  - left. now exists a, w1.
  - right. exists e. now inversion H.
Qed.

Lemma lift_inv {A} (o : option A) e w r w' :
  lift o e w = (r, w') ->
  w' = w /\ ((exists a, o = Some a /\ r = Ok a) \/ (o = None /\ r = Raise e)).
Proof.
  destruct o; simpl; unfold ret, raise; intros H; inversion H; subst;
    split; eauto.
Qed.

Lemma unpack2_inv l w r w' :
  unpack2 l w = (r, w') ->
  w' = w /\ ((exists a b, l = [a; b] /\ r = Ok (a, b)) \/ exists e, r = Raise e).
Proof.
  unfold unpack2. destruct l as [|a [|b [|c l]]]; unfold ret, raise;
    intros H; inversion H; subst; split; eauto.
Qed.

(** A run of [simulate] either ends in its setup, having made setup calls
    only, or reaches the loop: the setup fixes the uploader, the waiter, the
    first sequence number [n * 10], the instant [t] the day strings are
    taken from and the temporary directory; the loop runs from there, and
    the directory is cleaned up whatever the loop did. *)
Lemma simulate_run env ccd_name starttime destination interval tempdir numexp
      inputfile compress w r w' :
  simulate env ccd_name starttime destination interval tempdir numexp
           inputfile compress w = (r, w') ->
  (exists e l, r = Raise e /\ clock w <= clock w' /\
               trace w' = (trace w ++ l)%list /\ Forall setup_call l)
  \/
  (exists hour minute n uploader waiter t temp_dir l0 w1 r1 w2,
      Str.split ":" starttime = [hour; minute] /\
      Py.int (hour ++ minute) = Some n /\
      trace w1 = (trace w ++ l0)%list /\ Forall setup_call l0 /\
      clock w <= t <= clock w1 /\
      for_range numexp
        (exposure env uploader waiter (n * 10)
                  (Datetime.strftime_Y_m_d t) (Datetime.strftime_Ymd t)
                  ccd_name (parse temp_dir) inputfile compress) w1 = (r1, w2) /\
      trace w' = (trace w2 ++ [CCleanup temp_dir])%list /\
      clock w2 <= clock w' /\
      (r = r1 \/ exists what, r = Raise (External what)) /\
      fst (create env destination w) = Ok uploader).
Proof.
  unfold simulate. intros H.
  apply bind_inv in H as [(hm & wa & H1 & H)|(e & H1 & ->)].
  2:{ apply unpack2_inv in H1 as [-> _]. left. exists e, [].
      rewrite app_nil_r. repeat split; auto. lia. }
  apply unpack2_inv in H1 as [-> [(hour & minute & Hs & Hhm)|(e & Hhm)]];
    [|discriminate].
  inversion Hhm; subst hm; clear Hhm.
  apply bind_inv in H as [(n & wb & H1 & H)|(e & H1 & ->)].
  2:{ apply lift_inv in H1 as [-> _]. left. exists e, [].
      rewrite app_nil_r. repeat split; auto. lia. }
  apply lift_inv in H1 as [-> [(n' & Hn & Hn')|[_ Hn']]]; [|discriminate].
  inversion Hn'; subst n'; clear Hn'.
  apply bind_inv in H as [(up & w1 & H1 & H)|(e & H1 & ->)].
  2:{ destruct (emits_run _ _ _ _ _ (create_quiet env destination) H1)
        as (Hc & l & E & Hl). left. now exists e, l. }
  destruct (emits_run _ _ _ _ _ (create_quiet env destination) H1)
    as (Hc1 & l1 & E1 & Hl1).
  assert (Hcreate : fst (create env destination w) = Ok up)
    by now rewrite H1.
  clear H1.
  apply bind_inv in H as [(h & wb & H1 & H)|(e & H1 & ->)].
  2:{ apply lift_inv in H1 as [-> _]. left. now exists e, l1. }
  apply lift_inv in H1 as [-> _].
  apply bind_inv in H as [(m & wb & H1 & H)|(e & H1 & ->)].
  2:{ apply lift_inv in H1 as [-> _]. left. now exists e, l1. }
  apply lift_inv in H1 as [-> _].
  apply bind_inv in H as [(waiter & w2 & H1 & H)|(e & H1 & ->)].
  2:{ destruct (emits_run _ _ _ _ _ (Waiter_init_quiet env h m interval) H1)
        as (Hc & l & E & Hl). left. exists e, (l1 ++ l)%list.
      rewrite E, E1, app_assoc. repeat split; [lia|].
      now apply Forall_app. }
  destruct (emits_run _ _ _ _ _ (Waiter_init_quiet env h m interval) H1)
    as (Hc2 & l2 & E2 & Hl2). clear H1.
  apply bind_inv in H as [(t & w3 & H1 & H)|(e & H1 & _)];
    [|discriminate].
  unfold datetime_now in H1. inversion H1; subst t w3; clear H1.
  unfold with_tempdir in H.
  set (temp_dir := tmpname env _ _) in H.
  apply bind_inv in H as [(s & w4 & H1 & H)|(e & H1 & ->)].
  2:{ destruct (emits_run _ (fun _ l => l = [CMkdtemp (str tempdir)])
                  _ _ _ (emits_call env _ _ (fun _ => eq_refl)
                                    (fun _ => eq_refl)) H1)
        as (Hc & l & E & ->).
      left. exists e, (l1 ++ l2 ++ [CNow; CMkdtemp (str tempdir)])%list.
      rewrite E. cbn [advance trace clock] in *.
      rewrite E2, E1, <- !app_assoc.
      repeat split; [lia|]. apply Forall_app. split; [exact Hl1|].
      apply Forall_app. split; [exact Hl2|].
      repeat constructor. }
  destruct (emits_run _ (fun _ l => l = [CMkdtemp (str tempdir)])
              _ _ _ (emits_call env _ _ (fun _ => eq_refl)
                                (fun _ => eq_refl)) H1)
    as (Hc4 & l & E4 & ->). clear H1.
  unfold try_finally in H.
  destruct (bind (logging_info env (UsingTempMsg temp_dir)) _ w4)
    as [r1 w5] eqn:Hloop.
  apply bind_inv in Hloop as [([] & w6 & H1 & Hloop)|(e & H1 & _)];
    [|discriminate].
  unfold logging_info in H1. inversion H1; subst w6; clear H1.
  right.
  exists hour, minute, n, up, waiter, (clock w2), temp_dir,
    (l1 ++ l2 ++ [CNow; CMkdtemp (str tempdir);
                  CLog (UsingTempMsg temp_dir)])%list,
    (advance env (CLog (UsingTempMsg temp_dir)) 0 w4), r1, w5.
  assert (Hfin : exists o, bind (call env (CCleanup temp_dir))
                      (fun _ => ret tt) w5
                    = (o, advance env (CCleanup temp_dir) 0 w5)
                    /\ (o = Ok tt \/ exists what, o = Raise (External what))).
  { unfold bind, call.
    destruct (answer env (clock w5) (CCleanup temp_dir));
      eexists; split; try reflexivity; eauto. }
  destruct Hfin as (o & Hfin & Ho). rewrite Hfin in H.
  cbn [advance trace clock] in *.
  repeat split; try assumption.
  - rewrite E4. cbn [trace]. rewrite E2, E1, <- !app_assoc. reflexivity.
  - apply Forall_app. split; [exact Hl1|].
    apply Forall_app. split; [exact Hl2|]. repeat constructor.
  - lia.
  - lia.
  - destruct Ho as [->|(what & ->)]; inversion H; reflexivity.
  - destruct Ho as [->|(what & ->)]; inversion H; cbn [advance clock]; lia.
  - destruct Ho as [->|(what & ->)]; inversion H; eauto.
Qed.


End HarnessFacts.

(** ** Staging *)

Module CopyFacts.

Import Pathlib.

Create HintDb run_db.
#[global] Hint Unfold log_timing try_finally try_except subprocess_run bind
  call logging_info time_time datetime_now time_sleep ret raise lift
  : run_db.

(** Unfolds the monad and the primitives and follows every answer of the
    environment. *)
Ltac run_cases :=
  repeat (autounfold with run_db; cbv beta iota;
          match goal with
          | |- context [answer ?e ?t ?c] => destruct (answer e t c) eqn:?
          | |- context [match ?o with Some _ => _ | None => _ end] =>
              destruct o eqn:?
          end);
  autounfold with run_db; cbv beta iota; cbn [fst snd].

(** What [copy] returns, when it returns. *)
Lemma copy_returns env source temp dest compress w p :
  fst (Harness.copy env source temp dest compress w) = Ok p ->
  if compress then with_suffix dest ".fits.fz" = Some p else p = dest.
Proof.
  unfold Harness.copy. destruct compress; run_cases;
    intros H; try discriminate; now inversion H.
Qed.

(** [copy] goes through whenever its outside calls complete, whatever
    status they complete with. *)
Lemma copy_completes env source temp dest compress w :
  (forall t c, exists s, answer env t c = Done s) ->
  name dest <> "" ->
  exists p, fst (Harness.copy env source temp dest compress w) = Ok p.
Proof.
  intros Hdone Hname.
  assert (Hs : exists p, with_suffix dest ".fits.fz" = Some p).
  { unfold with_suffix. cbn [Str.contains Str.startswith String.eqb
                             Ascii.eqb Bool.eqb negb andb orb].
    destruct (String.eqb (name dest) "") eqn:E; [|eauto].
    apply String.eqb_eq in E. congruence. }
  destruct Hs as (p & Hp).
  unfold Harness.copy. rewrite Hp. destruct compress; run_cases;
    try (eexists; reflexivity);
    match goal with
    | H : answer env ?t ?c = Fails _ |- _ =>
        destruct (Hdone t c) as (s & Hs); congruence
    end.
Qed.

Lemma legacy_copy_returns env source temp dest compress w p :
  fst (Legacy.copy env source temp dest compress w) = Ok p ->
  if compress then with_suffix dest ".fits.gz" = Some p else p = dest.
Proof.
  unfold Legacy.copy. destruct compress; run_cases;
    intros H; try discriminate; now inversion H.
Qed.

End CopyFacts.

(** ** Artifact names *)

Module NameFacts.

Import Str StrFacts PathFacts FmtFacts Pathlib.

Lemma app_inv_head (x a b : string) : x ++ a = x ++ b -> a = b.
Proof. induction x; simpl; intros H; [exact H|]. inversion H. auto. Qed.

Lemma app_inv_tail (a b y : string) : a ++ y = b ++ y -> a = b.
Proof.
  revert b. induction a as [|c a IH]; intros [|d b] H; simpl in H.
  - reflexivity.
  - apply (f_equal String.length) in H. simpl in H.
    rewrite length_app in H. lia.
  - apply (f_equal String.length) in H. simpl in H.
    rewrite length_app in H. lia.
  - inversion H. f_equal. auto.
Qed.

Lemma file_name_plain tag od seq sep ccd :
  contains "/" tag = false -> contains "/" od = false ->
  contains "/" sep = false -> contains "/" ccd = false ->
  plain (file_name tag od seq sep ccd) = true.
Proof.
  intros Ht Ho Hs Hc. unfold plain, file_name.
  apply andb_true_iff. split.
  - rewrite !contains_app, Ht, Ho, Hs, Hc, fmt_d_plain. reflexivity.
  - apply keep_part_long. rewrite !length_app. simpl. lia.
Qed.

Lemma dest_path_parts t seq ccd_name :
  contains "/" ccd_name = false ->
  Harness.dest_path (Datetime.strftime_Y_m_d t) (Datetime.strftime_Ymd t)
                    seq ccd_name
  = mkPath "" [Datetime.strftime_Y_m_d t;
               Datetime.strftime_Ymd t ++ Py.fmt_d 5 seq;
               file_name "MC" (Datetime.strftime_Ymd t) seq "_" ccd_name].
Proof.
  intros H. unfold Harness.dest_path.
  apply (joinpath2_plain _ _ (file_name "MC" _ seq "_" ccd_name)).
  - apply strftime_Y_m_d_plain.
  - apply exposure_dir_plain, strftime_Ymd_plain.
  - apply file_name_plain; auto using strftime_Ymd_plain.
Qed.

Lemma legacy_dest_path_parts camera t seq ccd :
  contains "/" camera = false -> contains "/" ccd = false ->
  Legacy.dest_path camera (Datetime.strftime_Y_m_d t)
                   (Datetime.strftime_Ymd t) seq ccd
  = mkPath "" [Datetime.strftime_Y_m_d t;
               Datetime.strftime_Ymd t ++ Py.fmt_d 5 seq;
               file_name camera (Datetime.strftime_Ymd t) seq "-" ccd].
Proof.
  intros Hcam H. unfold Legacy.dest_path.
  apply (joinpath2_plain _ _ (file_name camera _ seq "-" ccd)).
  - apply strftime_Y_m_d_plain.
  - apply exposure_dir_plain, strftime_Ymd_plain.
  - apply file_name_plain; auto using strftime_Ymd_plain.
Qed.

(** A file name ends in [.fits] after a stem that is not empty. *)
Lemma file_name_stem tag od seq sep ccd :
  exists x, x <> "" /\ file_name tag od seq sep ccd = x ++ ".fits".
Proof.
  exists (tag ++ "_O_" ++ od ++ "_" ++ Py.fmt_d 5 seq ++ sep ++ ccd).
  split.
  - intros E. apply (f_equal String.length) in E.
    rewrite !length_app in E. simpl in E. lia.
  - unfold file_name. now rewrite !app_assoc.
Qed.

(** Under compression the name gets [ext] after [.fits]. *)
Lemma with_suffix_file_name a b tag od seq sep ccd ext p :
  contains "/" ext = false ->
  with_suffix (mkPath "" [a; b; file_name tag od seq sep ccd])
              (".fits" ++ ext) = Some p ->
  str p = a ++ "/" ++ b ++ "/" ++ file_name tag od seq sep ccd ++ ext.
Proof.
  intros Hext H.
  destruct (file_name_stem tag od seq sep ccd) as (x & Hx & E).
  rewrite E in *.
  change [a; b; x ++ ".fits"] with (List.app [a; b] [x ++ ".fits"]) in H.
  rewrite (with_suffix_fits "" [a; b] x ext Hx Hext) in H.
  inversion H; subst p. cbn [List.app]. rewrite str_rel3.
  now rewrite !app_assoc.
Qed.

End NameFacts.

(** ** The work of a run, exposure by exposure *)

Module LedgerFacts.

Import Pathlib Harness RunFacts HarnessFacts Ledger Observations.

Local Open Scope list_scope.

Lemma work_app l1 l2 : work (l1 ++ l2) = work l1 ++ work l2.
Proof. apply filter_app. Qed.

Lemma work_timing l : Forall (fun c => is_timing c = true) l -> work l = [].
Proof.
  induction 1 as [|c l Hc _ IH]; [reflexivity|].
  unfold work in *. cbn [filter]. now rewrite Hc.
Qed.

Lemma wait_exposure_timing env self num :
  quiet (fun c => is_timing c = true) (wait_exposure env self num).
Proof. unfold wait_exposure. quiet_steps; reflexivity. Qed.

Lemma indices_shift n : forall i,
  indices i n = map (fun j => i + Z.of_nat j) (seq 0 n).
Proof.
  induction n as [|n IH]; intros i; [reflexivity|].
  cbn [indices seq map]. rewrite Z.add_0_r. f_equal.
  rewrite IH, <- seq_shift, map_map. apply map_ext. intros j. lia.
Qed.

Lemma indices_as_range k : indices 0 k = Main.range (Z.of_nat k).
Proof. unfold Main.range. rewrite Nat2Z.id, indices_shift. reflexivity. Qed.

(** Closes one run of a staging or a transfer: the calls made, then how
    far the script got. *)
Ltac ledger_case :=
  (eexists; split;
   [cbn [advance trace]; rewrite <- ?app_assoc; reflexivity|]);
  cbn [work filter is_timing negb List.app];
  first [ left; eexists; split; [reflexivity|split; reflexivity]
        | right; eexists; eexists; split; [reflexivity|reflexivity] ].

(** The work of [copy]. *)
Lemma copy_ledger env source temp dest compress :
  emits (copy env source temp dest compress)
        (progress (copy_script source temp dest compress)
                  (fun p => p = delivered compress dest)).
Proof.
  intros w. split.
  - assert (Hq : quiet (fun _ => True)
                       (copy env source temp dest compress))
      by (unfold copy; quiet_steps; exact I).
    destruct (Hq w) as [Hc _]. exact Hc.
  - unfold copy, progress, copy_script, delivered.
    destruct compress; CopyFacts.run_cases; ledger_case.
Qed.

(** The work of [transfer]. *)
Lemma transfer_ledger env self temp source :
  emits (transfer env self temp source)
        (progress (transfer_script self temp source) (fun _ => True)).
Proof.
  intros w. split.
  - assert (Hq : quiet (fun _ => True) (transfer env self temp source))
      by (unfold transfer; quiet_steps; exact I).
    destruct (Hq w) as [Hc _]. exact Hc.
  - unfold transfer, raise_for_status, progress, transfer_script.
    destruct self; CopyFacts.run_cases;
      repeat match goal with
             | |- context [if (?a && ?b)%bool then _ else _] =>
                 destruct (a && b)%bool
             end;
      CopyFacts.run_cases; ledger_case.
Qed.

(** The work of one exposure. *)
Lemma exposure_ledger env uploader waiter s0 t ccd_name temp inputfile
      compress i :
  emits (exposure env uploader waiter s0 (Datetime.strftime_Y_m_d t)
                  (Datetime.strftime_Ymd t) ccd_name temp inputfile
                  compress i)
        (progress (exposure_script uploader ccd_name temp inputfile compress
                                   t s0 i)
                  (fun _ => True)).
Proof.
  unfold exposure, exposure_script.
  set (dest := dest_path _ _ _ _).
  apply emits_bind. eapply emits_conseq; [apply wait_exposure_timing|].
  intros r l1 H1. apply work_timing in H1.
  destruct r as [[]|e].
  2:{ right. exists e. eexists. split; [reflexivity|].
      rewrite H1. reflexivity. }
  apply emits_bind, emits_log.
  apply emits_bind. eapply emits_conseq; [apply copy_ledger|].
  intros r l2 [(p & -> & -> & H2)|(e & tail & -> & H2)].
  - eapply emits_conseq; [apply transfer_ledger|].
    intros r l3 [([] & -> & _ & H3)|(e & tail & -> & H3)].
    + left. exists tt. split; [reflexivity|]. split; [exact I|].
      rewrite !work_app, H1, H2, H3. reflexivity.
    + right. exists e, tail. split; [reflexivity|].
      rewrite !work_app, H1, H2, H3.
      cbn [work filter is_timing negb List.app].
      now rewrite <- !app_assoc.
  - right. exists e. eexists. split; [reflexivity|].
    rewrite !work_app, H1, H2.
    cbn [work filter is_timing negb List.app].
    rewrite <- !app_assoc. reflexivity.
Qed.

(** The work of a loop whose turns each do their script or raise on the
    way. *)
Lemma for_from_ledger (body : Z -> M unit) (script : Z -> list Call) n :
  forall i,
    (forall j, emits (body j) (progress (script j) (fun _ => True))) ->
    emits (for_from n i body)
          (fun r l =>
             exists k rest,
               (k <= n)%nat /\
               work l = flat_map script (indices i k) ++ rest /\
               ((r = Ok tt /\ k = n /\ rest = []) \/
                ((k < n)%nat /\ (exists e, r = Raise e) /\
                 exists tail, script (i + Z.of_nat k) = rest ++ tail))).
Proof.
  induction n as [|n IH]; intros i H; cbn [for_from].
  - apply emits_ret. exists 0%nat, []. split; [lia|]. split; [reflexivity|].
    left. auto.
  - apply emits_bind. eapply emits_conseq; [apply H|].
    intros r l1 [([] & -> & _ & H1)|(e & tail & -> & H1)].
    + eapply emits_conseq; [apply (IH (i + 1) H)|].
      intros r l2 (k & rest & Hk & Hw & Hr).
      exists (S k), rest. split; [lia|]. split.
      * rewrite work_app, H1, Hw. cbn [indices flat_map].
        now rewrite <- app_assoc.
      * destruct Hr as [(-> & -> & ->)|(Hlt & He & tl & Htl)].
        -- left. auto.
        -- right. split; [lia|]. split; [exact He|]. exists tl.
           rewrite <- Htl. f_equal. lia.
    + exists 0%nat, (work l1). split; [lia|]. split; [reflexivity|].
      right. split; [lia|]. split; [now exists e|]. exists tail.
      now rewrite Z.add_0_r.
Qed.

(** The work of a run: it ends in its setup, or its loop does the work of
    the exposures in order, named for the day of the one instant [t] the
    setup read and numbered from [n * 10]. *)
Lemma simulate_ledger env ccd_name starttime destination interval tempdir
      numexp inputfile compress w r w' :
  simulate env ccd_name starttime destination interval tempdir numexp
           inputfile compress w = (r, w') ->
  (exists e l, r = Raise e /\ trace w' = trace w ++ l /\
               Forall setup_call l)
  \/
  (exists hour minute n uploader t temp_dir l0 l1,
      Str.split ":" starttime = [hour; minute] /\
      Py.int (hour ++ minute) = Some n /\
      fst (create env destination w) = Ok uploader /\
      (exists w1, trace w1 = trace w ++ l0 /\
                  clock w <= t <= clock w1 /\ clock w1 <= clock w') /\
      trace w' = trace w ++ l0 ++ l1 ++ [CCleanup temp_dir] /\
      Forall setup_call l0 /\
      loop_ledger (exposure_script uploader ccd_name (parse temp_dir)
                                   inputfile compress t (n * 10))
                  numexp r l1).
Proof.
  intros E.
  apply simulate_run in E
    as [(e & l & -> & _ & El & Hl)
       |(hour & minute & n & up & wa & t & temp_dir & l0 & w1 & r1 & w2 &
         Hs & Hn & E1 & Hl0 & Ht & Hloop & E2 & Hc & Hr & Hup)].
  - left. now exists e, l.
  - right.
    pose proof (for_from_ledger _ _ (Z.to_nat numexp) 0
                  (fun j => exposure_ledger env up wa (n * 10) t ccd_name
                              (parse temp_dir) inputfile compress j)) as Hq.
    destruct (emits_run _ _ _ _ _ Hq Hloop)
      as (Hc2 & l1 & El & k & rest & Hk & Hw & Hk2).
    exists hour, minute, n, up, t, temp_dir, l0, l1.
    split; [exact Hs|]. split; [exact Hn|]. split; [exact Hup|].
    split; [exists w1; split; [exact E1|]; lia|]. split.
    { rewrite E2, El, E1, <- !app_assoc. reflexivity. }
    split; [exact Hl0|].
    exists k, rest. split; [exact Hk|]. split.
    { rewrite Hw, indices_as_range. reflexivity. }
    destruct Hk2 as [(_ & -> & ->)|(Hlt & (e & ->) & tl & Htl)].
    + left. auto.
    + right. split; [exact Hlt|]. split.
      * destruct Hr as [->|(what & ->)]; eauto.
      * exists tl. rewrite <- Htl. reflexivity.
Qed.

End LedgerFacts.

(** ** Failures end the run *)

Module StopFacts.

Import Pathlib Harness RunFacts Ledger.

Local Open Scope list_scope.






























End StopFacts.

(** * The claims *)

Import Pathlib.

(** C3, counterexample: on 2024-01-02, sequence number 10000, sensor 0-0,
    [simulate] of apxfr/src/harness.py names the artifact with an underscore
    before the sensor, where the specified format has a hyphen. *)
Lemma artifact_path_has_underscore :
  str (Harness.dest_path "2024-01-02" "20240102" 10000 "0-0")
  = "2024-01-02/2024010210000/MC_O_20240102_10000_0-0.fits" /\
  Naming.spec_artifact_path "2024-01-02" "20240102" 10000 "MC" "0-0"
  = "2024-01-02/2024010210000/MC_O_20240102_10000-0-0.fits" /\
  str (Harness.dest_path "2024-01-02" "20240102" 10000 "0-0")
  <> Naming.spec_artifact_path "2024-01-02" "20240102" 10000 "MC" "0-0".
Proof.
  split; [reflexivity|]. split; [reflexivity|].
  vm_compute. discriminate.
Qed.

(** C3, amended: for every day (of an instant [t]), sequence number and
    sensor or camera tag without a slash: apxfr/src/harness.py names the
    artifact [YYYY-MM-DD/YYYYMMDD<seq:05d>/MC_O_YYYYMMDD_<seq:05d>_<ccd>.fits],
    the tag fixed to MC and an underscore before the sensor, and [copy]
    returns it with [.fz] appended under compression and as it is
    otherwise; the older src/harness.py names it as specified, with the
    camera tag and a hyphen, and its [copy] appends [.gz] under compression. *)
Theorem artifact_path_format t seq camera ccd :
  Str.contains "/" ccd = false -> Str.contains "/" camera = false ->
  let ods := Datetime.strftime_Y_m_d t in
  let od := Datetime.strftime_Ymd t in
  str (Harness.dest_path ods od seq ccd)
  = ods ++ "/" ++ od ++ Py.fmt_d 5 seq ++ "/" ++
    "MC_O_" ++ od ++ "_" ++ Py.fmt_d 5 seq ++ "_" ++ ccd ++ ".fits"
  /\
  (forall env source temp compress w p,
      fst (Harness.copy env source temp (Harness.dest_path ods od seq ccd)
                        compress w) = Ok p ->
      str p = str (Harness.dest_path ods od seq ccd)
              ++ (if compress then ".fz" else ""))
  /\
  str (Legacy.dest_path camera ods od seq ccd)
  = Naming.spec_artifact_path ods od seq camera ccd
  /\
  (forall env source temp compress w p,
      fst (Legacy.copy env source temp (Legacy.dest_path camera ods od seq ccd)
                       compress w) = Ok p ->
      str p = Naming.spec_artifact_path ods od seq camera ccd
              ++ (if compress then ".gz" else "")).
Proof.
  intros Hccd Hcam ods od. subst ods od.
  rewrite (NameFacts.dest_path_parts t seq ccd Hccd).
  rewrite (NameFacts.legacy_dest_path_parts camera t seq ccd Hcam Hccd).
  rewrite !PathFacts.str_rel3.
  split; [|split; [|split]].
  - unfold Naming.file_name. now rewrite !StrFacts.app_assoc.
  - intros env source temp compress w p H.
    apply CopyFacts.copy_returns in H. destruct compress.
    + apply (NameFacts.with_suffix_file_name _ _ _ _ _ _ _ ".fz") in H;
        [|reflexivity].
      rewrite H. unfold Naming.file_name.
      now rewrite !StrFacts.app_assoc.
    + subst p. rewrite PathFacts.str_rel3.
      now rewrite !StrFacts.app_assoc, StrFacts.app_empty_r.
  - unfold Naming.file_name, Naming.spec_artifact_path.
    now rewrite !StrFacts.app_assoc.
  - intros env source temp compress w p H.
    apply CopyFacts.legacy_copy_returns in H. destruct compress.
    + apply (NameFacts.with_suffix_file_name _ _ _ _ _ _ _ ".gz") in H;
        [|reflexivity].
      rewrite H. unfold Naming.file_name, Naming.spec_artifact_path.
      now rewrite !StrFacts.app_assoc.
    + subst p. rewrite PathFacts.str_rel3.
      unfold Naming.file_name, Naming.spec_artifact_path.
      now rewrite !StrFacts.app_assoc, StrFacts.app_empty_r.
Qed.

(** C3, witness: sensor 0-0 on 2024-01-02 under sequence number 10000, in
    both harnesses. *)
Lemma artifact_path_format_witness :
  str (Harness.dest_path "2024-01-02" "20240102" 10000 "0-0")
  = "2024-01-02/2024010210000/MC_O_20240102_10000_0-0.fits" /\
  str (Legacy.dest_path "AT" "2024-01-02" "20240102" 10000 "0-0")
  = "2024-01-02/2024010210000/AT_O_20240102_10000-0-0.fits".
Proof.
  pose proof (artifact_path_format Runs.t0 10000 "AT" "0-0"
                                   eq_refl eq_refl) as (H1 & _ & H2 & _).
  split; [exact H1|exact H2].
Defined.

(** C5, counterexample: [fpack] runs and exits with status 1, and [copy]
    with [compress] set still returns the [.fits.fz] path; nothing is
    raised. *)
Lemma copy_ignores_fpack_failure :
  let dest := Harness.dest_path "2024-01-02" "20240102" 10000 "0-0" in
  let staged :=
    "/tmp/tmpabc/2024-01-02/2024010210000/MC_O_20240102_10000_0-0.fits" in
  answer Runs.env_fpack_fails Runs.t0 (CRun ["fpack"; staged] None None)
  = Done 1 /\
  In (CRun ["fpack"; staged] None None)
     (trace (snd (Harness.copy Runs.env_fpack_fails Runs.inputfile
                               (parse "/tmp/tmpabc") dest true Runs.w0))) /\
  fst (Harness.copy Runs.env_fpack_fails Runs.inputfile
                    (parse "/tmp/tmpabc") dest true Runs.w0)
  = Ok (parse "2024-01-02/2024010210000/MC_O_20240102_10000_0-0.fits.fz").
Proof.
  split; [reflexivity|]. split; [|vm_compute; reflexivity].
  vm_compute. do 6 right. left. reflexivity.
Qed.

(** C5, amended: with [compress] set, whenever [copy] returns, it returns
    the destination with [.fits.fz] in place of its last suffix; and it
    does return whenever [mkdir], [cp] and [fpack] can be run at all,
    whatever status they exit with: a failing exit status of the
    compression pass is not looked at and raises nothing. *)
Theorem copy_compress env source temp dest w :
  (forall p, fst (Harness.copy env source temp dest true w) = Ok p ->
             with_suffix dest ".fits.fz" = Some p) /\
  ((forall t c, exists s, answer env t c = Done s) ->
   name dest <> "" ->
   exists p, fst (Harness.copy env source temp dest true w) = Ok p).
Proof.
  split.
  - intros p H. exact (CopyFacts.copy_returns _ _ _ _ true _ _ H).
  - intros Hdone Hname. now apply CopyFacts.copy_completes.
Qed.

(** C5, witness: [copy] returns although [fpack] exits with status 1. *)
Lemma copy_compress_witness :
  exists p,
    fst (Harness.copy Runs.env_fpack_fails Runs.inputfile
                      (parse "/tmp/tmpabc")
                      (Harness.dest_path "2024-01-02" "20240102" 10000 "0-0")
                      true Runs.w0) = Ok p.
Proof.
  refine (proj2 (copy_compress Runs.env_fpack_fails Runs.inputfile
                   (parse "/tmp/tmpabc")
                   (Harness.dest_path "2024-01-02" "20240102" 10000 "0-0")
                   Runs.w0) _ _).
  - intros t c. destruct c; try (exists 0; reflexivity).
    destruct argv as [|prog argv]; [exists 0; reflexivity|].
    cbn [answer Runs.env_fpack_fails].
    destruct (String.eqb prog "fpack"); eexists; reflexivity.
  - vm_compute. discriminate.
Defined.

(** C1, counterexample: units 0-0 and 0-1, both started for 10:00, derive
    sequence number 10000 for exposure 0, and their runs announce artifacts
    under that same number. *)
Lemma units_share_sequence_number :
  "0-0" <> "0-1" /\
  Naming.sequence_number "0-0" "10:00" 0 = Some 10000 /\
  Naming.sequence_number "0-1" "10:00" 0 = Some 10000 /\
  Effects.announced
    (trace (snd (Harness.simulate Runs.env_ok "0-0" "10:00"
                   "http://example/bucket" 17 Runs.tempdir 1 Runs.inputfile
                   false Runs.w0)))
  = ["/tmp/tmpabc/2024-01-02/2024010210000/MC_O_20240102_10000_0-0.fits"] /\
  Effects.announced
    (trace (snd (Harness.simulate Runs.env_ok "0-1" "10:00"
                   "http://example/bucket" 17 Runs.tempdir 1 Runs.inputfile
                   false Runs.w0)))
  = ["/tmp/tmpabc/2024-01-02/2024010210000/MC_O_20240102_10000_0-1.fits"].
Proof.
  split; [discriminate|]. repeat split; vm_compute; reflexivity.
Qed.

(** C1, amended: the sequence number of exposure [i] is
    [int(hour + minute) * 10 + i] in every unit: it depends on the start
    time and the index only. For a start time [hour:minute] with
    [n = int(hour + minute)], whatever the unit identifier [ccd_name], the
    destination and the environment, a run that gets through its setup
    does the work of its exposures 0, 1, ... in this order, and all the
    work of exposure [i] (the announcement, the directory, [cp], [fpack],
    the upload) is on the one artifact numbered [n * 10 + i]: two units
    started with the same start time use the same number for the same
    index. The unit identifier is part of the file name, so the artifacts
    of two units with distinct identifiers (without a slash) differ all
    the same. *)
Theorem sequence_number_shared env ccd_name starttime hour minute n
        destination interval tempdir numexp inputfile compress w :
  Str.split ":" starttime = [hour; minute] ->
  Py.int (hour ++ minute) = Some n ->
  ((exists e l,
       fst (Harness.simulate env ccd_name starttime destination interval
                             tempdir numexp inputfile compress w)
       = Raise e /\
       trace (snd (Harness.simulate env ccd_name starttime destination
                     interval tempdir numexp inputfile compress w))
       = (trace w ++ l)%list /\
       Forall Effects.setup_call l)
   \/
   (exists uploader t temp_dir l0 l1,
       fst (Harness.create env destination w) = Ok uploader /\
       trace (snd (Harness.simulate env ccd_name starttime destination
                     interval tempdir numexp inputfile compress w))
       = (trace w ++ l0 ++ l1 ++ [CCleanup temp_dir])%list /\
       Forall Effects.setup_call l0 /\
       Ledger.loop_ledger
         (Ledger.exposure_script uploader ccd_name (parse temp_dir)
                                 inputfile compress t (n * 10))
         numexp
         (fst (Harness.simulate env ccd_name starttime destination interval
                                tempdir numexp inputfile compress w))
         l1))
  /\
  (forall other t i,
      Str.contains "/" ccd_name = false -> Str.contains "/" other = false ->
      ccd_name <> other ->
      Harness.dest_path (Datetime.strftime_Y_m_d t) (Datetime.strftime_Ymd t)
                        (n * 10 + i) ccd_name
      <> Harness.dest_path (Datetime.strftime_Y_m_d t)
                           (Datetime.strftime_Ymd t) (n * 10 + i) other).
Proof.
  intros Hs Hn. split.
  - destruct (Harness.simulate env ccd_name starttime destination interval
                               tempdir numexp inputfile compress w)
      as [r w'] eqn:E.
    cbn [fst snd].
    apply LedgerFacts.simulate_ledger in E
      as [(e & l & -> & El & Hl)
         |(hour' & minute' & n' & up & t & temp_dir & l0 & l1 &
           Hs' & Hn' & Hup & _ & El & Hl0 & Hled)].
    + left. now exists e, l.
    + right. rewrite Hs in Hs'. inversion Hs'; subst hour' minute'.
      rewrite Hn in Hn'. inversion Hn'; subst n'.
      now exists up, t, temp_dir, l0, l1.
  - intros other t i H1 H2 Hne E.
    rewrite (NameFacts.dest_path_parts t _ ccd_name H1) in E.
    rewrite (NameFacts.dest_path_parts t _ other H2) in E.
    inversion E as [E']. unfold Naming.file_name in E'.
    repeat match type of E' with
           | String _ _ = String _ _ => injection E' as E'
           | (_ ++ _ = _ ++ _)%string => apply NameFacts.app_inv_head in E'
           end.
    apply NameFacts.app_inv_tail in E'. contradiction.
Qed.

(** C1, witness: units 0-0 and 0-1 started for 10:00: two exposures each,
    the same two numbers 10000 and 10001 in both units. *)
Lemma sequence_number_shared_witness :
  Ledger.work
    (trace (snd (Harness.simulate Runs.env_ok "0-0" "10:00"
                   "http://example/bucket" 17 Runs.tempdir 2 Runs.inputfile
                   false Runs.w0)))
  = ([CLog (CreatingMsg "http://example/bucket"); CImport "requests";
      CLog (HttpOpenMsg "http://example/bucket"); CSession;
      CMkdtemp "/tmp"; CLog (UsingTempMsg "/tmp/tmpabc")]
     ++ flat_map (Ledger.exposure_script
                    (Harness.HttpUploader "http://example/bucket") "0-0"
                    (parse "/tmp/tmpabc") Runs.inputfile false Runs.t0
                    (1000 * 10))
                 [0; 1]
     ++ [CCleanup "/tmp/tmpabc"])%list /\
  Ledger.work
    (trace (snd (Harness.simulate Runs.env_ok "0-1" "10:00"
                   "http://example/bucket" 17 Runs.tempdir 2 Runs.inputfile
                   false Runs.w0)))
  = ([CLog (CreatingMsg "http://example/bucket"); CImport "requests";
      CLog (HttpOpenMsg "http://example/bucket"); CSession;
      CMkdtemp "/tmp"; CLog (UsingTempMsg "/tmp/tmpabc")]
     ++ flat_map (Ledger.exposure_script
                    (Harness.HttpUploader "http://example/bucket") "0-1"
                    (parse "/tmp/tmpabc") Runs.inputfile false Runs.t0
                    (1000 * 10))
                 [0; 1]
     ++ [CCleanup "/tmp/tmpabc"])%list /\
  Harness.dest_path "2024-01-02" "20240102" 10001 "0-0"
  <> Harness.dest_path "2024-01-02" "20240102" 10001 "0-1".
Proof.
  pose proof (sequence_number_shared Runs.env_ok "0-0" "10:00" "10" "00"
                1000 "http://example/bucket" 17 Runs.tempdir 2
                Runs.inputfile false Runs.w0 eq_refl eq_refl) as [_ H].
  split; [vm_compute; reflexivity|]. split; [vm_compute; reflexivity|].
  apply (H "0-1" Runs.t0 1); [reflexivity|reflexivity|discriminate].
Defined.

(** ** The loop *)

Module LoopFacts.

Import Harness RunFacts.

Local Open Scope list_scope.












End LoopFacts.




(** C8: in every run of [simulate] the day strings are those of one
    instant [t], read from the clock in the setup, before the loop. The
    run either ends in its setup, before any exposure, or [t] lies between
    the start of the run and the end of its setup, and the run does the
    work of its exposures 0, 1, ... in this order, all of it (the
    announcement, the directory, [cp], [fpack], the upload) on artifacts
    named for the day of [t], for every exposure index, whenever the
    exposure is run. *)
Theorem obs_day_fixed env ccd_name starttime destination interval tempdir
        numexp inputfile compress w :
  (exists e l,
      fst (Harness.simulate env ccd_name starttime destination interval
                            tempdir numexp inputfile compress w) = Raise e /\
      trace (snd (Harness.simulate env ccd_name starttime destination
                    interval tempdir numexp inputfile compress w))
      = (trace w ++ l)%list /\
      Forall Effects.setup_call l)
  \/
  (exists uploader s0 t temp_dir l0 l1 w1,
      trace w1 = (trace w ++ l0)%list /\ Forall Effects.setup_call l0 /\
      clock w <= t <= clock w1 /\
      clock w1 <= clock (snd (Harness.simulate env ccd_name starttime
                                destination interval tempdir numexp
                                inputfile compress w)) /\
      trace (snd (Harness.simulate env ccd_name starttime destination
                    interval tempdir numexp inputfile compress w))
      = (trace w1 ++ l1 ++ [CCleanup temp_dir])%list /\
      Ledger.loop_ledger
        (Ledger.exposure_script uploader ccd_name (parse temp_dir)
                                inputfile compress t s0)
        numexp
        (fst (Harness.simulate env ccd_name starttime destination interval
                               tempdir numexp inputfile compress w))
        l1).
Proof.
  destruct (Harness.simulate env ccd_name starttime destination interval
                             tempdir numexp inputfile compress w)
    as [r w'] eqn:E.
  cbn [fst snd].
  apply LedgerFacts.simulate_ledger in E
    as [(e & l & -> & El & Hl)
       |(hour & minute & n & up & t & temp_dir & l0 & l1 &
         _ & _ & _ & (w1 & E1 & Ht & Hc) & El & Hl0 & Hled)].
  - left. now exists e, l.
  - right. exists up, (n * 10), t, temp_dir, l0, l1, w1.
    split; [exact E1|]. split; [exact Hl0|]. split; [exact Ht|].
    split; [exact Hc|]. split; [|exact Hled].
    rewrite El, E1, <- !app_assoc. reflexivity.
Qed.

(** A run that starts at 23:59:50 for 23:59 with one minute between
    exposures: the second exposure is due at midnight, is staged on
    2024-01-03 and is still named for 2024-01-02. *)
Lemma obs_day_across_midnight :
  let w := mkWorld (Runs.t0 + 14 * 3600 * 1000000) [] in
  let run := Harness.simulate Runs.env_ok "0-0" "23:59"
               "http://example/bucket" 60 Runs.tempdir 2 Runs.inputfile
               false w in
  Datetime.strftime_Ymd (clock w) = "20240102" /\
  Datetime.strftime_Ymd (clock (snd run)) = "20240103" /\
  Effects.announced (trace (snd run))
  = ["/tmp/tmpabc/2024-01-02/2024010223590/MC_O_20240102_23590_0-0.fits";
     "/tmp/tmpabc/2024-01-02/2024010223591/MC_O_20240102_23591_0-0.fits"] /\
  Ledger.work (trace (snd run))
  = ([CLog (CreatingMsg "http://example/bucket"); CImport "requests";
      CLog (HttpOpenMsg "http://example/bucket"); CSession;
      CMkdtemp "/tmp"; CLog (UsingTempMsg "/tmp/tmpabc")]
     ++ flat_map (Ledger.exposure_script
                    (Harness.HttpUploader "http://example/bucket") "0-0"
                    (parse "/tmp/tmpabc") Runs.inputfile false (clock w)
                    23590)
                 [0; 1]
     ++ [CCleanup "/tmp/tmpabc"])%list /\
  In (CPut "http://example/bucket/2024-01-02/2024010223591/MC_O_20240102_23591_0-0.fits"
           "/tmp/tmpabc/2024-01-02/2024010223591/MC_O_20240102_23591_0-0.fits")
     (trace (snd run)).
Proof.
  split; [vm_compute; reflexivity|]. split; [vm_compute; reflexivity|].
  split; [vm_compute; reflexivity|]. split; [vm_compute; reflexivity|].
  vm_compute.
  repeat match goal with
         | |- _ \/ _ => first [left; reflexivity|right]
         end.
Qed.

(** ** The waiter *)

Module WaiterFacts.

Import Harness.

Local Open Scope list_scope.

Lemma replace_hm_ok t hour minute :
  0 <= hour <= 23 -> 0 <= minute <= 59 ->
  Datetime.replace_hm t hour minute = Some (base_of t hour minute).
Proof.
  intros Hh Hm. unfold Datetime.replace_hm.
  replace ((0 <=? hour) && (hour <=? 23) && (0 <=? minute)
           && (minute <=? 59))%bool with true; [reflexivity|].
  symmetry. rewrite !andb_true_iff, !Z.leb_le. lia.
Qed.

Lemma add_seconds_ok t s :
  0 <= t + s * Datetime.us_per_second <= Datetime.max_instant ->
  Datetime.add_seconds t s = Some (t + s * Datetime.us_per_second).
Proof.
  intros H. unfold Datetime.add_seconds, Datetime.in_range.
  replace ((0 <=? t + s * Datetime.us_per_second)
           && (t + s * Datetime.us_per_second <=? Datetime.max_instant))%bool
    with true; [reflexivity|].
  symmetry. rewrite andb_true_iff, !Z.leb_le. lia.
Qed.

Lemma base_of_split t hour minute :
  base_of t hour minute
  = Datetime.us_per_day * (t / Datetime.us_per_day)
    + (hour * 3600 + minute * 60) * Datetime.us_per_second.
Proof.
  unfold base_of, Datetime.time_of_day.
  pose proof (Z.div_mod t Datetime.us_per_day) as H.
  assert (Datetime.us_per_day <> 0) by (vm_compute; discriminate).
  specialize (H ltac:(assumption)). lia.
Qed.

Lemma time_of_start_bound hour minute :
  0 <= hour <= 23 -> 0 <= minute <= 59 ->
  0 <= (hour * 3600 + minute * 60) * Datetime.us_per_second
  < Datetime.us_per_day.
Proof.
  intros Hh Hm. unfold Datetime.us_per_day, Datetime.us_per_second. lia.
Qed.

(** The base instant is on the day of [t], at [hour:minute:00.000000]. *)
Lemma base_of_same_day t hour minute :
  0 <= hour <= 23 -> 0 <= minute <= 59 ->
  Datetime.toordinal (base_of t hour minute) = Datetime.toordinal t /\
  Datetime.time_of_day (base_of t hour minute)
  = (hour * 3600 + minute * 60) * Datetime.us_per_second.
Proof.
  intros Hh Hm. pose proof (time_of_start_bound hour minute Hh Hm) as Hb.
  unfold Datetime.toordinal, Datetime.time_of_day.
  rewrite base_of_split. split.
  - f_equal. symmetry.
    apply (Z.div_unique_pos _ _ _
             ((hour * 3600 + minute * 60) * Datetime.us_per_second));
      [exact Hb|reflexivity].
  - symmetry.
    apply (Z.mod_unique_pos _ _ (t / Datetime.us_per_day));
      [exact Hb|reflexivity].
Qed.

Lemma base_of_nonneg t hour minute :
  0 <= hour <= 23 -> 0 <= minute <= 59 -> 0 <= t ->
  0 <= base_of t hour minute.
Proof.
  intros Hh Hm Ht. pose proof (time_of_start_bound hour minute Hh Hm).
  rewrite base_of_split.
  assert (0 <= t / Datetime.us_per_day).
  { apply Z.div_pos; [exact Ht|]. vm_compute. reflexivity. }
  unfold Datetime.us_per_day, Datetime.us_per_second in *. lia.
Qed.

(** A target that has passed: the clock is read, the late condition is
    logged, and that is all. *)
Lemma wait_exposure_late env self num w :
  0 <= base_time self + num * interval self * Datetime.us_per_second
    <= Datetime.max_instant ->
  let when := base_time self + num * interval self * Datetime.us_per_second in
  when < clock w ->
  wait_exposure env self num w
  = (Ok tt, advance env (CLog (LateMsg (clock w - when) num when)) 0
                    (advance env CNow 0 w)).
Proof.
  intros Hr when Hlate. unfold wait_exposure.
  rewrite (add_seconds_ok _ _ Hr). fold when.
  unfold lift, bind, ret, datetime_now. cbn [clock advance].
  rewrite (proj2 (Z.ltb_lt (when - clock w) 0)) by lia.
  unfold logging_info.
  replace (Z.abs (when - clock w)) with (clock w - when) by lia.
  reflexivity.
Qed.





End WaiterFacts.

(** Closes a closed arithmetic side condition by evaluation. *)
Ltac by_eval := vm_compute; repeat split; first [reflexivity | discriminate].




(** C10: for every valid hour and minute the waiter's base instant is on
    the calendar day of the instant the waiter is built at, at
    [hour:minute:00.000000]; it is never moved to the next day: when it
    lies before the construction instant, an exposure whose target has
    passed (exposure 0 first of all) is logged late and returned from at
    once, without sleeping. *)
Theorem base_time_same_day env hour minute interval w0 :
  0 <= hour <= 23 -> 0 <= minute <= 59 ->
  Datetime.in_range (clock w0) = true ->
  exists self w1,
    Harness.Waiter_init env hour minute interval w0 = (Ok self, w1) /\
    Datetime.toordinal (Harness.base_time self)
    = Datetime.toordinal (clock w0) /\
    Datetime.time_of_day (Harness.base_time self)
    = (hour * 3600 + minute * 60) * Datetime.us_per_second /\
    (Harness.base_time self < clock w0 ->
     forall num w,
       0 <= num * interval ->
       Datetime.in_range (clock w) = true ->
       Harness.base_time self + num * interval * Datetime.us_per_second
       < clock w ->
       exists w',
         Harness.wait_exposure env self num w = (Ok tt, w') /\
         trace w'
         = (trace w ++
            [CNow;
             CLog (LateMsg
                     (clock w - (Harness.base_time self
                                 + num * interval * Datetime.us_per_second))
                     num
                     (Harness.base_time self
                      + num * interval * Datetime.us_per_second))])%list).
Proof.
  intros Hh Hm Hr0.
  unfold Datetime.in_range in Hr0. apply andb_true_iff in Hr0 as [Hlo Hhi].
  apply Z.leb_le in Hlo, Hhi.
  exists (Harness.mkWaiter (Schedule.base_of (clock w0) hour minute)
                           interval).
  eexists. split.
  - unfold Harness.Waiter_init, bind, datetime_now. cbn [clock advance].
    rewrite (WaiterFacts.replace_hm_ok _ _ _ Hh Hm). reflexivity.
  - cbn [Harness.base_time].
    destruct (WaiterFacts.base_of_same_day (clock w0) hour minute Hh Hm)
      as [Hd Ht].
    split; [exact Hd|]. split; [exact Ht|].
    intros Hpast num w Hni Hrw Hlate.
    unfold Datetime.in_range in Hrw. apply andb_true_iff in Hrw as [_ Hwhi].
    apply Z.leb_le in Hwhi.
    pose proof (WaiterFacts.base_of_nonneg (clock w0) hour minute Hh Hm Hlo)
      as Hb.
    assert (Hr : 0 <= Harness.base_time
                        (Harness.mkWaiter
                           (Schedule.base_of (clock w0) hour minute)
                           interval)
                      + num * Harness.interval
                                (Harness.mkWaiter
                                   (Schedule.base_of (clock w0) hour minute)
                                   interval)
                        * Datetime.us_per_second
                 <= Datetime.max_instant).
    { cbn [Harness.base_time Harness.interval].
      unfold Datetime.us_per_second in *. lia. }
    eexists. split.
    + exact (WaiterFacts.wait_exposure_late env _ num w Hr Hlate).
    + cbn [advance trace Harness.base_time Harness.interval].
      now rewrite <- app_assoc.
Qed.

(** C10, witness: at 09:59:50 with a start time of 09:00, the waiter's base
    instant is 09:00 of the same day and exposure 0 is late by 3590
    seconds. *)
Lemma base_time_same_day_witness :
  exists self w1,
    Harness.Waiter_init Runs.env_ok 9 0 17 Runs.w0 = (Ok self, w1) /\
    Datetime.toordinal (Harness.base_time self) = 738887 /\
    exists w',
      Harness.wait_exposure Runs.env_ok self 0 Runs.w0 = (Ok tt, w') /\
      trace w'
      = [CNow; CLog (LateMsg 3590000000 0 (Harness.base_time self))].
Proof.
  destruct (base_time_same_day Runs.env_ok 9 0 17 Runs.w0
              ltac:(lia) ltac:(lia) ltac:(by_eval))
    as (self & w1 & E & Hd & Ht & Hlate).
  exists self, w1. split; [exact E|]. split; [exact Hd|].
  assert (Hs : self = Harness.mkWaiter (Schedule.base_of Runs.t0 9 0) 17).
  { vm_compute in E. inversion E. reflexivity. }
  subst self.
  destruct (Hlate ltac:(by_eval) 0 Runs.w0 ltac:(lia) ltac:(by_eval)
                  ltac:(by_eval))
    as (w' & E' & Htr).
  exists w'. split; [exact E'|]. rewrite Htr. reflexivity.
Defined.

(** The older harness, in the same situation, sleeps until 09:00 of the
    next day: [wait_until] adds 24 hours to a negative delay. *)
Lemma wait_until_defers_a_day :
  trace (snd (Legacy.wait_until Runs.env_ok 9 0 Runs.w0))
  = [CNow; CNow;
     CLog (SleepingUntilMsg (86400000000 - 3590000000) 9 0);
     CSleep (86400000000 - 3590000000)].
Proof. vm_compute. reflexivity. Qed.

(** ** Uploader.create *)

Module CreateFacts.

Import Harness.

Lemma returns_ret {A} (P : A -> Prop) a : P a -> returns P (ret a).
Proof. intros H w b E. inversion E. now subst. Qed.

Lemma returns_raise {A} (P : A -> Prop) e : returns P (raise e).
Proof. intros w b E. discriminate. Qed.

Lemma returns_bind {A B} (P : B -> Prop) (m : M A) (f : A -> M B) :
  (forall a, returns P (f a)) -> returns P (bind m f).
Proof.
  intros H w b. unfold bind. destruct (m w) as [[a|e] w1]; [|discriminate].
  apply H.
Qed.

Ltac returns_step :=
  match goal with
  | |- returns _ (bind _ _) => apply returns_bind; intros ?
  | |- returns _ (ret _) => apply returns_ret
  | |- returns _ (raise _) => apply returns_raise
  | |- returns _ (unpack2 _) => unfold unpack2
  | |- returns _ (if ?b then _ else _) => destruct b
  | |- returns _ (match ?x with _ => _ end) => destruct x
  end.

Lemma GsapiUploader_init_returns env dest :
  returns (fun u => class_name u = "GsapiUploader")
          (GsapiUploader_init env dest).
Proof. unfold GsapiUploader_init. repeat returns_step. reflexivity. Qed.

Lemma HttpUploader_init_returns env dest :
  returns (fun u => u = HttpUploader dest) (HttpUploader_init env dest).
Proof. unfold HttpUploader_init. repeat returns_step. reflexivity. Qed.

Lemma ScpUploader_init_returns env dest :
  returns (fun u => class_name u = "ScpUploader") (ScpUploader_init env dest).
Proof. unfold ScpUploader_init. repeat returns_step. reflexivity. Qed.

(** [create] on each scheme prefix. *)
Lemma create_gsapi env rest :
  create env ("gsapi://" ++ rest)
  = (logging_info env (CreatingMsg ("gsapi://" ++ rest)) ;;
     GsapiUploader_init env rest).
Proof. reflexivity. Qed.

Lemma create_boto env rest :
  create env ("boto://" ++ rest)
  = (logging_info env (CreatingMsg ("boto://" ++ rest)) ;;
     GsapiUploader_init env rest).
Proof. reflexivity. Qed.

Lemma create_minio env rest :
  create env ("minio://" ++ rest)
  = (logging_info env (CreatingMsg ("minio://" ++ rest)) ;;
     GsapiUploader_init env rest).
Proof. reflexivity. Qed.

Lemma create_https env rest :
  create env ("https://" ++ rest)
  = (logging_info env (CreatingMsg ("https://" ++ rest)) ;;
     HttpUploader_init env ("https://" ++ rest)).
Proof. reflexivity. Qed.

Lemma create_http env rest :
  create env ("http://" ++ rest)
  = (logging_info env (CreatingMsg ("http://" ++ rest)) ;;
     HttpUploader_init env ("http://" ++ rest)).
Proof. reflexivity. Qed.

Lemma create_bbcp env rest :
  create env ("bbcp://" ++ rest)
  = (logging_info env (CreatingMsg ("bbcp://" ++ rest)) ;;
     HttpUploader_init env rest).
Proof. reflexivity. Qed.

Lemma create_scp env rest :
  create env ("scp://" ++ rest)
  = (logging_info env (CreatingMsg ("scp://" ++ rest)) ;;
     ScpUploader_init env rest).
Proof. reflexivity. Qed.

Lemma create_unrecognized env dest :
  recognized dest = false ->
  create env dest
  = (logging_info env (CreatingMsg dest) ;;
     raise (RuntimeError ("Unrecognized URL " ++ dest))).
Proof.
  unfold recognized, schemes. cbn [existsb]. intros H.
  repeat (apply orb_false_iff in H; destruct H as [? H]).
  unfold create.
  repeat match goal with
         | E : Str.startswith _ dest = false |- _ => rewrite E; clear E
         end.
  reflexivity.
Qed.

Lemma create_returns env dest :
  returns (fun u => class_name u = "GsapiUploader" \/
                    class_name u = "HttpUploader" \/
                    class_name u = "ScpUploader")
          (create env dest).
Proof.
  unfold create. apply returns_bind. intros _.
  repeat match goal with
         | |- returns _ (if ?b then _ else _) => destruct b
         end;
    try apply returns_raise;
    intros w u E.
  1-3: left; exact (GsapiUploader_init_returns _ _ w u E).
  1-2: right; left;
       now rewrite (HttpUploader_init_returns _ _ w u E).
  right; right; exact (ScpUploader_init_returns _ _ w u E).
Qed.

Lemma create_bbcp_returns env rest :
  returns (fun u => u = HttpUploader rest) (create env ("bbcp://" ++ rest)).
Proof.
  rewrite create_bbcp. apply returns_bind. intros _.
  apply HttpUploader_init_returns.
Qed.

Lemma create_scheme_class env scheme cls rest :
  In (scheme, cls) scheme_class ->
  returns (fun u => class_name u = cls) (create env (scheme ++ rest)).
Proof.
  intros Hin. cbn [scheme_class In] in Hin.
  repeat (destruct Hin as [Hin|Hin];
          [inversion Hin; subst scheme cls; clear Hin|]);
    try contradiction.
  - rewrite create_gsapi. apply returns_bind. intros _.
    apply GsapiUploader_init_returns.
  - rewrite create_boto. apply returns_bind. intros _.
    apply GsapiUploader_init_returns.
  - rewrite create_minio. apply returns_bind. intros _.
    apply GsapiUploader_init_returns.
  - rewrite create_https. apply returns_bind. intros _ w u E.
    now rewrite (HttpUploader_init_returns _ _ w u E).
  - rewrite create_http. apply returns_bind. intros _ w u E.
    now rewrite (HttpUploader_init_returns _ _ w u E).
  - rewrite create_bbcp. apply returns_bind. intros _ w u E.
    now rewrite (HttpUploader_init_returns _ _ w u E).
  - rewrite create_scp. apply returns_bind. intros _.
    apply ScpUploader_init_returns.
Qed.

(** A destination with a scheme prefix is never refused as unrecognized:
    [create] raises only what the constructor raises. *)
Lemma create_scheme_raises env scheme cls rest w e :
  In (scheme, cls) scheme_class ->
  fst (create env (scheme ++ rest) w) = Raise e ->
  (exists what, e = External what) \/
  e = ValueError "wrong number of values to unpack".
Proof.
  intros Hin. cbn [scheme_class In] in Hin.
  repeat (destruct Hin as [Hin|Hin];
          [inversion Hin; subst scheme cls; clear Hin|]);
    try contradiction;
    [rewrite create_gsapi|rewrite create_boto|rewrite create_minio
    |rewrite create_https|rewrite create_http|rewrite create_bbcp
    |rewrite create_scp];
    unfold GsapiUploader_init, HttpUploader_init, ScpUploader_init.
  1-3: destruct (Str.contains "/" rest) eqn:Hc;
       [destruct (StrFacts.splitn1_cut _ _ Hc) as (a & b & Hab);
        rewrite Hab|];
       cbn [unpack2]; CopyFacts.run_cases; intros H;
       try discriminate H; inversion H; left; eexists; reflexivity.
  1-3: CopyFacts.run_cases; intros H;
       try discriminate H; inversion H; left; eexists; reflexivity.
  destruct (Str.splitn 1 "/" rest) as [|a [|b [|c l]]]; cbn [unpack2];
    CopyFacts.run_cases; intros H; try discriminate H; inversion H;
    right; reflexivity.
Qed.

(** With a scheme prefix, [create] returns its uploader whenever the calls
    of the constructor complete; an [scp://] destination needs a slash
    after the host. *)
Lemma create_scheme_builds env scheme cls rest w :
  In (scheme, cls) scheme_class ->
  (forall t c, exists s, answer env t c = Done s) ->
  (scheme = "scp://" -> Str.contains "/" rest = true) ->
  exists u, fst (create env (scheme ++ rest) w) = Ok u.
Proof.
  intros Hin Hdone Hscp. cbn [scheme_class In] in Hin.
  repeat (destruct Hin as [Hin|Hin];
          [inversion Hin; subst scheme cls; clear Hin|]);
    try contradiction;
    [rewrite create_gsapi|rewrite create_boto|rewrite create_minio
    |rewrite create_https|rewrite create_http|rewrite create_bbcp
    |rewrite create_scp];
    unfold GsapiUploader_init, HttpUploader_init, ScpUploader_init.
  1-3: destruct (Str.contains "/" rest) eqn:Hc;
       [destruct (StrFacts.splitn1_cut _ _ Hc) as (a & b & Hab);
        rewrite Hab|];
       cbn [unpack2]; CopyFacts.run_cases;
       try (eexists; reflexivity);
       match goal with
       | H : answer _ ?t ?c = Fails _ |- _ =>
           destruct (Hdone t c) as (s & Hs); congruence
       end.
  1-3: CopyFacts.run_cases;
       try (eexists; reflexivity);
       match goal with
       | H : answer _ ?t ?c = Fails _ |- _ =>
           destruct (Hdone t c) as (s & Hs); congruence
       end.
  destruct (StrFacts.splitn1_cut _ _ (Hscp eq_refl)) as (a & b & Hab).
  rewrite Hab. cbn [unpack2]. CopyFacts.run_cases. eexists; reflexivity.
Qed.

End CreateFacts.

(** C9: [create] hands [boto://] and [minio://] destinations to the
    [GsapiUploader] constructor exactly as it does [gsapi://] ones, and
    [bbcp://] destinations to the [HttpUploader] constructor with the prefix
    stripped; whatever the destination, what [create] returns is a
    [GsapiUploader], an [HttpUploader] or a [ScpUploader], and no call of
    the [BotoUploader], [MinioUploader] or [BbcpUploader] constructors is
    made. *)
Theorem create_dispatch env dest rest w :
  Harness.create env ("boto://" ++ rest) w
  = (logging_info env (CreatingMsg ("boto://" ++ rest)) ;;
     Harness.GsapiUploader_init env rest) w
  /\
  Harness.create env ("minio://" ++ rest) w
  = (logging_info env (CreatingMsg ("minio://" ++ rest)) ;;
     Harness.GsapiUploader_init env rest) w
  /\
  Harness.create env ("gsapi://" ++ rest) w
  = (logging_info env (CreatingMsg ("gsapi://" ++ rest)) ;;
     Harness.GsapiUploader_init env rest) w
  /\
  Harness.create env ("bbcp://" ++ rest) w
  = (logging_info env (CreatingMsg ("bbcp://" ++ rest)) ;;
     Harness.HttpUploader_init env rest) w
  /\
  (forall u, fst (Harness.create env ("bbcp://" ++ rest) w) = Ok u ->
             u = Harness.HttpUploader rest)
  /\
  (forall u, fst (Harness.create env dest w) = Ok u ->
             Dispatch.class_name u = "GsapiUploader" \/
             Dispatch.class_name u = "HttpUploader" \/
             Dispatch.class_name u = "ScpUploader")
  /\
  (exists l, trace (snd (Harness.create env dest w)) = (trace w ++ l)%list /\
             Forall (fun c => Effects.is_unused_backend c = false) l).
Proof.
  repeat split; try reflexivity.
  - intros u E. exact (CreateFacts.create_bbcp_returns env rest w u E).
  - apply CreateFacts.create_returns.
  - destruct (HarnessFacts.create_quiet env dest w) as (_ & l & E & Hl).
    exists l. split; [exact E|].
    eapply Forall_impl; [|exact Hl]. intros c [_ H]. exact H.
Qed.

(** C6: a destination that starts with none of the scheme prefixes makes
    [create] raise [RuntimeError "Unrecognized URL ..."], an error of its
    own that no transfer raises; in [simulate] this happens before the
    waiter is built: the run ends with that error, or with the
    [ValueError] of a start time that does not parse, having read no clock
    and slept for no exposure. A destination that starts with a scheme
    prefix is never refused in this way: whatever follows the prefix, the
    uploader [create] returns is of the class of the prefix, [create]
    raises only what the constructor of that class raises, and it does
    return an uploader whenever the calls of the constructor complete (an
    [scp://] destination having its slash after the host). *)
Theorem unrecognized_scheme_fails env dest :
  (Dispatch.recognized dest = false ->
   (forall w,
       Harness.create env dest w
       = (Raise (RuntimeError ("Unrecognized URL " ++ dest)),
          advance env (CLog (CreatingMsg dest)) 0 w)) /\
   (forall ccd_name starttime interval tempdir numexp inputfile compress w,
       (fst (Harness.simulate env ccd_name starttime dest interval tempdir
                              numexp inputfile compress w)
        = Raise (RuntimeError ("Unrecognized URL " ++ dest)) /\
        trace (snd (Harness.simulate env ccd_name starttime dest interval
                                     tempdir numexp inputfile compress w))
        = (trace w ++ [CLog (CreatingMsg dest)])%list)
       \/
       ((exists msg,
            fst (Harness.simulate env ccd_name starttime dest interval
                                  tempdir numexp inputfile compress w)
            = Raise (ValueError msg)) /\
        snd (Harness.simulate env ccd_name starttime dest interval tempdir
                              numexp inputfile compress w) = w)))
  /\
  (forall scheme cls rest w,
      In (scheme, cls) Dispatch.scheme_class ->
      (forall u,
          fst (Harness.create env (scheme ++ rest) w) = Ok u ->
          Dispatch.class_name u = cls)
      /\
      (forall e,
          fst (Harness.create env (scheme ++ rest) w) = Raise e ->
          (exists what, e = External what) \/
          e = ValueError "wrong number of values to unpack")
      /\
      ((forall t c, exists s, answer env t c = Done s) ->
       (scheme = "scp://" -> Str.contains "/" rest = true) ->
       exists u,
         fst (Harness.create env (scheme ++ rest) w) = Ok u /\
         Dispatch.class_name u = cls)).
Proof.
  split.
  - intros Hu. split.
    + intros w. rewrite (CreateFacts.create_unrecognized env dest Hu).
      reflexivity.
    + intros ccd_name starttime interval tempdir numexp inputfile compress w.
      unfold Harness.simulate, Harness.unpack2, Harness.py_int.
      rewrite (CreateFacts.create_unrecognized env dest Hu).
      unfold bind, ret, raise, lift, logging_info.
      destruct (Str.split ":" starttime) as [|hour [|minute [|x l]]];
        try (right; split; [eexists|]; reflexivity).
      destruct (Py.int (hour ++ minute)) as [n|];
        [|right; split; [eexists|]; reflexivity].
      left. split; reflexivity.
  - intros scheme cls rest w Hin. split; [|split].
    + intros u E.
      exact (CreateFacts.create_scheme_class env scheme cls rest Hin w u E).
    + intros e E.
      exact (CreateFacts.create_scheme_raises env scheme cls rest w e Hin E).
    + intros Hdone Hscp.
      destruct (CreateFacts.create_scheme_builds env scheme cls rest w Hin
                  Hdone Hscp) as (u & E).
      exists u. split; [exact E|].
      exact (CreateFacts.create_scheme_class env scheme cls rest Hin w u E).
Qed.

(** C6, witness: an ftp:// destination is refused before anything else
    is done; an scp:// destination gives an [ScpUploader]. *)
Lemma unrecognized_scheme_fails_witness :
  (fst (Harness.simulate Runs.env_ok "0-0" "10:00" "ftp://example/bucket" 17
                         Runs.tempdir 3 Runs.inputfile false Runs.w0)
   = Raise (RuntimeError "Unrecognized URL ftp://example/bucket") /\
   trace (snd (Harness.simulate Runs.env_ok "0-0" "10:00"
                 "ftp://example/bucket" 17 Runs.tempdir 3 Runs.inputfile
                 false Runs.w0))
   = [CLog (CreatingMsg "ftp://example/bucket")]) /\
  exists u,
    fst (Harness.create Runs.env_ok "scp://host/dir" Runs.w0) = Ok u /\
    Dispatch.class_name u = "ScpUploader".
Proof.
  split.
  - destruct (proj1 (unrecognized_scheme_fails Runs.env_ok
                       "ftp://example/bucket") eq_refl) as [_ H].
    destruct (H "0-0" "10:00" 17 Runs.tempdir 3 Runs.inputfile false Runs.w0)
      as [[H1 H2]|[[msg H1] _]].
    + split; [exact H1|exact H2].
    + vm_compute in H1. discriminate H1.
  - exact (proj2 (proj2 (proj2 (unrecognized_scheme_fails Runs.env_ok "")
                           "scp://" "ScpUploader" "host/dir" Runs.w0
                           ltac:(cbn; tauto)))
                 (fun _ _ => ex_intro _ 0 eq_refl) (fun _ => eq_refl)).
Defined.

(** C7: when everything but the priming download works, the constructor
    of [GsapiUploader] returns its uploader whatever the download does; and
    when the download raises, the exception is logged as ignored. *)
Theorem priming_failure_swallowed env dest w :
  (forall t c, Effects.is_probe c = false ->
               exists s, answer env t c = Done s) ->
  exists bucket prefix,
    fst (Harness.GsapiUploader_init env dest w)
    = Ok (Harness.GsapiUploader bucket prefix) /\
    In (CDownload bucket ".null")
       (trace (snd (Harness.GsapiUploader_init env dest w))) /\
    forall what,
      (forall t, answer env t (CDownload bucket ".null") = Fails what) ->
      In (CLog (IgnoredMsg (External what)))
         (trace (snd (Harness.GsapiUploader_init env dest w))).
Proof.
  intros Hok.
  assert (Hsplit : exists bucket prefix,
             (if Str.contains "/" dest
              then Harness.unpack2 (Str.splitn 1 "/" dest)
              else ret (dest, "")) = ret (bucket, prefix)).
  { destruct (Str.contains "/" dest) eqn:Hc.
    - destruct (StrFacts.splitn1_cut _ _ Hc) as (a & b & Hab).
      exists a, b. now rewrite Hab.
    - now exists dest, "". }
  destruct Hsplit as (bucket & prefix & Hsplit).
  exists bucket, prefix.
  unfold Harness.GsapiUploader_init. rewrite Hsplit.
  CopyFacts.run_cases;
    try match goal with
        | H : answer env ?t ?c = Fails _ |- _ =>
            destruct (Hok t c eq_refl) as (s & Hs); congruence
        end.
  - repeat split.
    + cbn [advance trace]. apply in_or_app. right. now left.
    + intros what Hw.
      match goal with
      | H : answer env ?t (CDownload _ _) = Done _ |- _ =>
          rewrite (Hw t) in H; discriminate H
      end.
  - repeat split.
    + cbn [advance trace]. apply in_or_app. left.
      apply in_or_app. right. now left.
    + intros what' Hw.
      match goal with
      | H : answer env ?t (CDownload _ _) = Fails _ |- _ =>
          rewrite (Hw t) in H; inversion H; subst
      end.
      cbn [advance trace]. apply in_or_app. right. now left.
Qed.

(** C7, witness: the download of [.null] raises NotFound. *)
Lemma priming_failure_swallowed_witness :
  fst (Harness.GsapiUploader_init Runs.env_probe_fails "bucket/prefix"
                                  Runs.w0)
  = Ok (Harness.GsapiUploader "bucket" "prefix") /\
  In (CLog (IgnoredMsg (External "NotFound")))
     (trace (snd (Harness.GsapiUploader_init Runs.env_probe_fails
                    "bucket/prefix" Runs.w0))).
Proof.
  destruct (priming_failure_swallowed Runs.env_probe_fails "bucket/prefix"
              Runs.w0) as (bucket & prefix & E & _ & Hlog).
  - intros t c Hc. destruct c; try discriminate Hc; exists 0; reflexivity.
  - assert (Hb : bucket = "bucket" /\ prefix = "prefix").
    { vm_compute in E. inversion E. now split. }
    destruct Hb as [-> ->]. split; [exact E|].
    apply Hlog. intros t. reflexivity.
Defined.

(** * Further properties of the code *)

Import Observations.

(** ** The temporary directory *)

Module PhaseFacts.

Import Pathlib Harness RunFacts HarnessFacts.

Local Open Scope list_scope.

Lemma create_preparation env dest :
  quiet (fun c => is_preparation c = true) (create env dest).
Proof.
  unfold create, GsapiUploader_init, HttpUploader_init, ScpUploader_init.
  quiet_steps; reflexivity.
Qed.

Lemma Waiter_init_preparation env h m i :
  quiet (fun c => is_preparation c = true) (Waiter_init env h m i).
Proof. unfold Waiter_init. quiet_steps; reflexivity. Qed.

Lemma exposure_calls env uploader waiter s0 ods od ccd_name temp inputfile
      compress i :
  quiet (fun c => is_exposure_call c = true)
        (exposure env uploader waiter s0 ods od ccd_name temp inputfile
                  compress i).
Proof.
  unfold exposure, wait_exposure, copy, transfer. quiet_steps; reflexivity.
Qed.

(** The phases of a run: it ends while it prepares, or on the request for
    the temporary directory, or it gets the directory, announces it, runs
    its loop and cleans the directory up. *)
Lemma simulate_phases env ccd_name starttime destination interval tempdir
      numexp inputfile compress w r w' :
  simulate env ccd_name starttime destination interval tempdir numexp
           inputfile compress w = (r, w') ->
  (exists e l, r = Raise e /\
               (trace w' = trace w ++ l \/
                trace w' = trace w ++ l ++ [CMkdtemp (str tempdir)]) /\
               Forall (fun c => is_preparation c = true) l)
  \/
  (exists uploader waiter s0 ods od temp_dir l0 w1 r1 w2,
      Forall (fun c => is_preparation c = true) l0 /\
      trace w1 = trace w ++ l0 ++ [CMkdtemp (str tempdir);
                                   CLog (UsingTempMsg temp_dir)] /\
      for_range numexp
        (exposure env uploader waiter s0 ods od ccd_name (parse temp_dir)
                  inputfile compress) w1 = (r1, w2) /\
      trace w' = trace w2 ++ [CCleanup temp_dir] /\
      (r = r1 \/ exists what, r = Raise (External what))).
Proof.
  unfold simulate. intros H.
  apply bind_inv in H as [(hm & wa & H1 & H)|(e & H1 & ->)].
  2:{ apply unpack2_inv in H1 as [-> _]. left. exists e, [].
      rewrite app_nil_r. auto. }
  apply unpack2_inv in H1 as [-> [(hour & minute & Hs & Hhm)|(e & Hhm)]];
    [|discriminate].
  inversion Hhm; subst hm; clear Hhm.
  apply bind_inv in H as [(n & wb & H1 & H)|(e & H1 & ->)].
  2:{ apply lift_inv in H1 as [-> _]. left. exists e, [].
      rewrite app_nil_r. auto. }
  apply lift_inv in H1 as [-> _].
  apply bind_inv in H as [(up & w1 & H1 & H)|(e & H1 & ->)].
  2:{ destruct (emits_run _ _ _ _ _ (create_preparation env destination) H1)
        as (_ & l & E & Hl). left. exists e, l. auto. }
  destruct (emits_run _ _ _ _ _ (create_preparation env destination) H1)
    as (_ & l1 & E1 & Hl1). clear H1.
  apply bind_inv in H as [(h & wb & H1 & H)|(e & H1 & ->)].
  2:{ apply lift_inv in H1 as [-> _]. left. exists e, l1. auto. }
  apply lift_inv in H1 as [-> _].
  apply bind_inv in H as [(m & wb & H1 & H)|(e & H1 & ->)].
  2:{ apply lift_inv in H1 as [-> _]. left. exists e, l1. auto. }
  apply lift_inv in H1 as [-> _].
  apply bind_inv in H as [(waiter & w2 & H1 & H)|(e & H1 & ->)].
  2:{ destruct (emits_run _ _ _ _ _
                  (Waiter_init_preparation env h m interval) H1)
        as (_ & l & E & Hl). left. exists e, (l1 ++ l).
      rewrite E, E1, app_assoc. split; [reflexivity|].
      split; [now left|]. now apply Forall_app. }
  destruct (emits_run _ _ _ _ _ (Waiter_init_preparation env h m interval) H1)
    as (_ & l2 & E2 & Hl2). clear H1.
  apply bind_inv in H as [(t & w3 & H1 & H)|(e & H1 & _)];
    [|discriminate].
  unfold datetime_now in H1. inversion H1; subst t w3; clear H1.
  unfold with_tempdir in H.
  set (temp_dir := tmpname env _ _) in H.
  assert (Hprep : Forall (fun c => is_preparation c = true)
                         (l1 ++ l2 ++ [CNow])).
  { apply Forall_app. split; [exact Hl1|].
    apply Forall_app. split; [exact Hl2|]. repeat constructor. }
  apply bind_inv in H as [(s & w4 & H1 & H)|(e & H1 & ->)].
  2:{ destruct (emits_run _ (fun _ l => l = [CMkdtemp (str tempdir)])
                  _ _ _ (emits_call env _ _ (fun _ => eq_refl)
                                    (fun _ => eq_refl)) H1)
        as (_ & l & E & ->).
      left. exists e, (l1 ++ l2 ++ [CNow]).
      split; [reflexivity|]. split; [|exact Hprep].
      right. rewrite E. cbn [advance trace].
      rewrite E2, E1, <- !app_assoc. reflexivity. }
  destruct (emits_run _ (fun _ l => l = [CMkdtemp (str tempdir)])
              _ _ _ (emits_call env _ _ (fun _ => eq_refl)
                                (fun _ => eq_refl)) H1)
    as (_ & l & E4 & ->). clear H1.
  unfold try_finally in H.
  destruct (bind (logging_info env (UsingTempMsg temp_dir)) _ w4)
    as [r1 w5] eqn:Hloop.
  apply bind_inv in Hloop as [([] & w6 & H1 & Hloop)|(e & H1 & _)];
    [|discriminate].
  unfold logging_info in H1. inversion H1; subst w6; clear H1.
  right.
  exists up, waiter, (n * 10),
    (Datetime.strftime_Y_m_d (clock w2)), (Datetime.strftime_Ymd (clock w2)),
    temp_dir, (l1 ++ l2 ++ [CNow]),
    (advance env (CLog (UsingTempMsg temp_dir)) 0 w4), r1, w5.
  assert (Hfin : exists o, bind (call env (CCleanup temp_dir))
                      (fun _ => ret tt) w5
                    = (o, advance env (CCleanup temp_dir) 0 w5)
                    /\ (o = Ok tt \/ exists what, o = Raise (External what))).
  { unfold bind, call.
    destruct (answer env (clock w5) (CCleanup temp_dir));
      eexists; split; try reflexivity; eauto. }
  destruct Hfin as (o & Hfin & Ho). rewrite Hfin in H.
  split; [exact Hprep|]. split.
  { cbn [advance trace]. rewrite E4. cbn [advance trace].
    rewrite E2, E1, <- !app_assoc. reflexivity. }
  split; [exact Hloop|].
  destruct Ho as [->|(what & ->)]; inversion H; cbn [advance trace];
    split; eauto.
Qed.

End PhaseFacts.

(** X1: the temporary directory of a run is released on every way out.
    Either the run ends with an exception before it has the directory, and
    then it cleans nothing up; or its calls are, in order: the preparation,
    the request for the directory, the announcement of the directory [d],
    the calls of the exposures, and the clean-up of [d], exactly once and
    last, whether the loop returned or raised. *)
Theorem staging_area_released env ccd_name starttime destination interval
        tempdir numexp inputfile compress w :
  exists l,
    trace (snd (Harness.simulate env ccd_name starttime destination interval
                  tempdir numexp inputfile compress w))
    = (trace w ++ l)%list /\
    (((exists e,
          fst (Harness.simulate env ccd_name starttime destination interval
                                tempdir numexp inputfile compress w)
          = Raise e) /\
      Forall (fun c => is_cleanup c = false) l /\
      forall d, ~ In (CLog (UsingTempMsg d)) l)
     \/
     (exists d l1 l2,
         l = (l1 ++ [CMkdtemp (str tempdir); CLog (UsingTempMsg d)]
                 ++ l2 ++ [CCleanup d])%list /\
         Forall (fun c => is_preparation c = true) l1 /\
         Forall (fun c => is_exposure_call c = true) l2)).
Proof.
  destruct (Harness.simulate env ccd_name starttime destination interval
                             tempdir numexp inputfile compress w)
    as [r w'] eqn:E.
  cbn [fst snd].
  apply PhaseFacts.simulate_phases in E
    as [(e & l & -> & Htr & Hl)
       |(up & wa & s0 & ods & od & temp_dir & l0 & w1 & r1 & w2 &
         Hl0 & E1 & Hloop & E2 & _)].
  - assert (Hc : Forall (fun c => is_cleanup c = false) l /\
                 forall d, ~ In (CLog (UsingTempMsg d)) l).
    { split.
      - eapply Forall_impl; [|exact Hl]. intros c Hc.
        destruct c; try reflexivity; discriminate.
      - intros d Hin. rewrite Forall_forall in Hl.
        specialize (Hl _ Hin). discriminate. }
    destruct Hc as [Hc1 Hc2].
    destruct Htr as [Htr|Htr].
    + exists l. split; [exact Htr|]. left. split; [now exists e|]. now split.
    + exists (l ++ [CMkdtemp (str tempdir)])%list.
      split; [exact Htr|]. left. split; [now exists e|]. split.
      * apply Forall_app. split; [exact Hc1|]. repeat constructor.
      * intros d Hin. apply in_app_or in Hin as [Hin|[Hin|[]]];
          [exact (Hc2 d Hin)|discriminate].
  - pose proof (RunFacts.quiet_for_range _ _ numexp
                  (fun i _ => PhaseFacts.exposure_calls env up wa s0 ods od
                                ccd_name (parse temp_dir) inputfile compress
                                i)) as Hq.
    destruct (RunFacts.emits_run _ _ _ _ _ Hq Hloop) as (_ & l2 & El & Hl2).
    exists (l0 ++ [CMkdtemp (str tempdir); CLog (UsingTempMsg temp_dir)]
               ++ l2 ++ [CCleanup temp_dir])%list.
    split.
    + rewrite E2, El, E1, <- !app_assoc. reflexivity.
    + right. now exists temp_dir, l0, l2.
Qed.

(** X2: what [copy] does when it returns: it logs its start and reads the
    time, creates the parent directory of the staged file, runs [cp] from
    the source to the staged file and, with [compress] only, [fpack] on the
    staged file, then reads the time and logs its end; it makes no other
    call, this order is fixed, and without [compress] no call of [fpack]
    is made on any way out. *)
Theorem copy_calls env source temp dest compress w :
  (forall p,
      fst (Harness.copy env source temp dest compress w) = Ok p ->
      exists delta,
        trace (snd (Harness.copy env source temp dest compress w))
        = (trace w ++
           [CLog (StartMsg "copy"); CNow;
            CMkdir (str (parent (truediv temp dest)));
            CLog (CopyingMsg (str source) (str (truediv temp dest)));
            CRun ["cp"; str source; str (truediv temp dest)] None None] ++
           (if compress
            then [CLog (CompressingMsg (str (truediv temp dest)));
                  CRun ["fpack"; str (truediv temp dest)] None None]
            else []) ++
           [CNow; CLog (EndMsg "copy" delta)])%list)
  /\
  (compress = false ->
   exists l,
     trace (snd (Harness.copy env source temp dest compress w))
     = (trace w ++ l)%list /\
     Forall (fun c => match c with
                      | CRun ("fpack" :: _) _ _ => False
                      | CLog (CompressingMsg _) => False
                      | _ => True
                      end) l).
Proof.
  split.
  - intros p. unfold Harness.copy. destruct compress; CopyFacts.run_cases;
      intros H; try discriminate H;
      cbn [advance trace]; rewrite <- !app_assoc; cbn [List.app];
      eexists; reflexivity.
  - intros ->.
    assert (Hq : Effects.quiet
                   (fun c => match c with
                             | CRun ("fpack" :: _) _ _ => False
                             | CLog (CompressingMsg _) => False
                             | _ => True
                             end)
                   (Harness.copy env source temp dest false)).
    { unfold Harness.copy. quiet_steps; exact I. }
    destruct (Hq w) as (_ & l & E & Hl). now exists l.
Qed.

(** X2, witness: a compressed staging in a world where every call
    completes. *)
Lemma copy_calls_witness :
  exists delta,
    trace (snd (Harness.copy Runs.env_ok Runs.inputfile (parse "/tmp/t")
                             (parse "d/x.fits") true Runs.w0))
    = [CLog (StartMsg "copy"); CNow; CMkdir "/tmp/t/d";
       CLog (CopyingMsg "data/S00.fits" "/tmp/t/d/x.fits");
       CRun ["cp"; "data/S00.fits"; "/tmp/t/d/x.fits"] None None;
       CLog (CompressingMsg "/tmp/t/d/x.fits");
       CRun ["fpack"; "/tmp/t/d/x.fits"] None None;
       CNow; CLog (EndMsg "copy" delta)].
Proof.
  destruct (proj1 (copy_calls Runs.env_ok Runs.inputfile (parse "/tmp/t")
                              (parse "d/x.fits") true Runs.w0)
                  (parse "d/x.fits.fz") eq_refl) as (delta & E).
  exists delta. exact E.
Defined.

(** X3: how [transfer] can fail. Whatever the uploader, the only
    exceptions [transfer] ends with are those of its outside calls and,
    for [HttpUploader] alone, the [HTTPError] of a response status from 400
    to 599. *)
Theorem transfer_failures env self temp_dir source w e :
  fst (Harness.transfer env self temp_dir source w) = Raise e ->
  (exists what, e = External what) \/
  (exists url status,
      self = Harness.HttpUploader url /\ e = HTTPError status /\
      400 <= status < 600).
Proof.
  unfold Harness.transfer, Harness.raise_for_status.
  destruct self; CopyFacts.run_cases;
    try (intros H; inversion H; left; eexists; reflexivity);
    try discriminate.
  repeat match goal with
         | |- context [if ?b then _ else _] => destruct b eqn:?
         end;
    CopyFacts.run_cases; intros H; inversion H; subst.
  right. eexists; eexists. split; [reflexivity|]. split; [reflexivity|].
  match goal with
  | Hb : (_ && _)%bool = true |- _ => apply andb_true_iff in Hb as [Hlo Hhi]
  end.
  split; [now apply Z.leb_le|now apply Z.ltb_lt].
Qed.

(** X3, witness: a PUT answered with status 500. *)
Lemma transfer_failures_witness :
  exists url status,
    Harness.HttpUploader "http://e" = Harness.HttpUploader url /\
    HTTPError 500 = HTTPError status /\ 400 <= status < 600.
Proof.
  destruct (transfer_failures Runs.env_http500 (Harness.HttpUploader "http://e")
              (parse "/tmp/t") (parse "d/x.fits") Runs.w0 (HTTPError 500)
              eq_refl) as [(what & H)|H].
  - discriminate H.
  - exact H.
Defined.

(** ** Destinations *)

Module DestinationFacts.

Import Str StrFacts Harness.

Lemma splitn1_app c a b :
  contains c a = false -> splitn 1 c (a ++ String c b) = [a; b].
Proof.
  induction a as [|x a IH]; intros H.
  - cbn [append splitn]. rewrite Ascii.eqb_refl. now destruct b.
  - cbn [contains] in H. apply orb_false_iff in H as [Hx Ha].
    cbn [append splitn]. rewrite Hx, (IH Ha). reflexivity.
Qed.

Lemma splitn1_plain c s : contains c s = false -> splitn 1 c s = [s].
Proof.
  induction s as [|x s IH]; intros H; [reflexivity|].
  cbn [contains] in H. apply orb_false_iff in H as [Hx Hs].
  cbn [splitn]. rewrite Hx, (IH Hs). reflexivity.
Qed.

Lemma contains_sep_app c a b : contains c (a ++ String c b) = true.
Proof.
  rewrite contains_app. cbn [contains]. rewrite Ascii.eqb_refl.
  now rewrite orb_true_r.
Qed.

Lemma returns_bind_ret {A B} (P : B -> Prop) (a : A) (f : A -> M B) :
  returns P (f a) -> returns P (bind (ret a) f).
Proof. intros H w b. exact (H w b). Qed.

Lemma create_gsapi_split env bucket prefix :
  contains "/" bucket = false ->
  returns (fun u => u = GsapiUploader bucket prefix)
          (create env ("gsapi://" ++ bucket ++ "/" ++ prefix)).
Proof.
  intros Hb. rewrite CreateFacts.create_gsapi.
  apply CreateFacts.returns_bind. intros _.
  unfold GsapiUploader_init.
  change (bucket ++ "/" ++ prefix) with (bucket ++ String "/" prefix).
  rewrite contains_sep_app, (splitn1_app _ _ _ Hb).
  cbn [unpack2].
  repeat first [ match goal with
                 | |- returns _ (bind (ret _) _) => apply returns_bind_ret
                 end
               | CreateFacts.returns_step ].
  reflexivity.
Qed.

Lemma create_gsapi_plain env bucket :
  contains "/" bucket = false ->
  returns (fun u => u = GsapiUploader bucket "")
          (create env ("gsapi://" ++ bucket)).
Proof.
  intros Hb. rewrite CreateFacts.create_gsapi.
  apply CreateFacts.returns_bind. intros _.
  unfold GsapiUploader_init. rewrite Hb.
  repeat first [ match goal with
                 | |- returns _ (bind (ret _) _) => apply returns_bind_ret
                 end
               | CreateFacts.returns_step ].
  reflexivity.
Qed.

End DestinationFacts.

(** X4: outside the HTTP uploader a transfer reports no failure of the
    copy itself: whenever its outside calls complete, whatever status they
    complete with (the exit status of [ssh] or [bbcp] included),
    [transfer] returns normally. *)
Theorem transfer_status_ignored env self temp_dir source w :
  (forall t c, exists s, answer env t c = Done s) ->
  (forall url, self <> Harness.HttpUploader url) ->
  fst (Harness.transfer env self temp_dir source w) = Ok tt.
Proof.
  intros Hdone Hself. unfold Harness.transfer.
  destruct self; try (exfalso; eapply Hself; reflexivity);
    CopyFacts.run_cases; try reflexivity;
    match goal with
    | H : answer env ?t ?c = Fails _ |- _ =>
        destruct (Hdone t c) as (s & Hs); congruence
    end.
Qed.

(** X4, witness: [ssh] exits with status 255 and the transfer over scp
    returns all the same. *)
Lemma transfer_status_ignored_witness :
  fst (Harness.transfer
         (mkEnv (fun _ c => match c with
                            | CRun _ _ _ => Done 255
                            | _ => Done 0
                            end)
                (fun _ _ => 0%N) Runs.tmp_under)
         (Harness.ScpUploader "host" (parse "dir")) (parse "/tmp/t")
         (parse "d/x.fits") Runs.w0) = Ok tt.
Proof.
  apply transfer_status_ignored.
  - intros t c. destruct c; eexists; reflexivity.
  - intros url. discriminate.
Defined.

(** X5: how a [gsapi://] destination is read. The bucket is what stands
    before the first slash and the prefix is all the rest, slashes
    included; without a slash the prefix is empty. The object a transfer
    uploads is named by the prefix, a slash and the relative path, or by
    the relative path alone when the prefix is empty. *)
Theorem gsapi_bucket_and_prefix env bucket prefix w :
  Str.contains "/" bucket = false ->
  (forall u,
      fst (Harness.create env ("gsapi://" ++ bucket ++ "/" ++ prefix) w)
      = Ok u ->
      u = Harness.GsapiUploader bucket prefix)
  /\
  (forall u,
      fst (Harness.create env ("gsapi://" ++ bucket) w) = Ok u ->
      u = Harness.GsapiUploader bucket "")
  /\
  (forall temp_dir source,
      In (CUpload bucket
                  (if String.eqb prefix "" then str source
                   else prefix ++ "/" ++ str source)
                  (str (truediv temp_dir source)))
         (trace (snd (Harness.transfer env
                        (Harness.GsapiUploader bucket prefix)
                        temp_dir source w)))).
Proof.
  intros Hb. split; [|split].
  - intros u E.
    exact (DestinationFacts.create_gsapi_split env bucket prefix Hb w u E).
  - intros u E.
    exact (DestinationFacts.create_gsapi_plain env bucket Hb w u E).
  - intros temp_dir source. unfold Harness.transfer.
    CopyFacts.run_cases; cbn [advance trace];
      rewrite <- !app_assoc; apply in_or_app; right;
      cbn [List.app In]; tauto.
Qed.

(** X5, witness: bucket [b], prefix [p/q]. *)
Lemma gsapi_bucket_and_prefix_witness :
  fst (Harness.create Runs.env_ok "gsapi://b/p/q" Runs.w0)
  = Ok (Harness.GsapiUploader "b" "p/q").
Proof.
  destruct (Harness.create Runs.env_ok "gsapi://b/p/q" Runs.w0)
    as [[u|e] w'] eqn:E.
  - cbn [fst]. f_equal.
    apply (proj1 (gsapi_bucket_and_prefix Runs.env_ok "b" "p/q" Runs.w0
                    eq_refl) u).
    change ("gsapi://" ++ "b" ++ "/" ++ "p/q") with "gsapi://b/p/q".
    now rewrite E.
  - vm_compute in E. discriminate E.
Defined.

(** X6: how an [scp://] destination is read. Without a slash after the
    prefix, as in [scp://host:dir], [create] ends with the [ValueError] of
    the unpacking and builds no uploader; with one, the host is what
    stands before the first slash and the remote path is the rest, so
    that the path is absolute only if a second slash follows the first. *)
Theorem scp_host_and_path env rest host path w :
  (Str.contains "/" rest = false ->
   fst (Harness.create env ("scp://" ++ rest) w)
   = Raise (ValueError "wrong number of values to unpack"))
  /\
  (Str.contains "/" host = false ->
   fst (Harness.create env ("scp://" ++ host ++ "/" ++ path) w)
   = Ok (Harness.ScpUploader host (parse path)) /\
   (root (parse path) = "" <-> Str.startswith "/" path = false)).
Proof.
  split.
  - intros H. rewrite CreateFacts.create_scp.
    unfold Harness.ScpUploader_init.
    rewrite (DestinationFacts.splitn1_plain _ _ H). reflexivity.
  - intros H. split.
    + rewrite CreateFacts.create_scp. unfold Harness.ScpUploader_init.
      change (host ++ "/" ++ path) with (host ++ String "/" path).
      rewrite (DestinationFacts.splitn1_app _ _ _ H). reflexivity.
    + unfold parse, root_of. cbn [root].
      destruct (Str.startswith "/" path); [|tauto].
      destruct (Str.startswith "//" path && negb (Str.startswith "///" path));
        split; discriminate.
Qed.

(** X6, witness: [scp://host:dir] is refused, [scp://host/dir] names the
    relative path [dir] on [host]. *)
Lemma scp_host_and_path_witness :
  fst (Harness.create Runs.env_ok "scp://host:dir" Runs.w0)
  = Raise (ValueError "wrong number of values to unpack") /\
  fst (Harness.create Runs.env_ok "scp://host/dir" Runs.w0)
  = Ok (Harness.ScpUploader "host" (parse "dir")).
Proof.
  split.
  - exact (proj1 (scp_host_and_path Runs.env_ok "host:dir" "" "" Runs.w0)
                 eq_refl).
  - exact (proj1 (proj2 (scp_host_and_path Runs.env_ok "" "host" "dir"
                           Runs.w0) eq_refl)).
Defined.

(** ** The older harness: input files, destinations, the start *)

Module LegacyFacts.

Import Str StrFacts Pathlib.

Local Open Scope list_scope.

Lemma splitn1_inv c s : forall a b,
  splitn 1 c s = [a; b] ->
  s = (a ++ String c b)%string /\ contains c a = false.
Proof.
  induction s as [|x t IH]; intros a b H; [discriminate|].
  cbn [splitn] in H. destruct (Ascii.eqb x c) eqn:E.
  - apply Ascii.eqb_eq in E. subst x.
    assert (H0 : splitn 0 c t = [t]) by now destruct t.
    rewrite H0 in H. inversion H. subst. now split.
  - destruct (splitn 1 c t) as [|h r] eqn:Ht; [discriminate|].
    inversion H. subst. destruct (IH h b eq_refl) as [-> Hh].
    split; [reflexivity|]. cbn [contains]. now rewrite E.
Qed.

Lemma startswith_contains c p : forall s,
  startswith p s = true -> contains c p = true -> contains c s = true.
Proof.
  induction p as [|a p IH]; intros s H1 H2; [discriminate|].
  destruct s as [|b s]; [discriminate|].
  cbn [startswith contains] in *.
  apply andb_true_iff in H1 as [Hb Hp]. apply Ascii.eqb_eq in Hb. subst b.
  apply orb_true_iff in H2 as [Ha|Hc].
  - now rewrite Ha.
  - rewrite (IH s Hp Hc). apply orb_true_r.
Qed.

Lemma split_two c s :
  contains c s = true -> exists x y l, split c s = x :: y :: l.
Proof.
  induction s as [|a t IH]; intros H; [discriminate|].
  cbn [contains] in H. cbn [split].
  destruct (Ascii.eqb a c) eqn:E.
  - pose proof (split_nonempty c t) as Hn.
    destruct (split c t) as [|y l]; [congruence|]. now exists EmptyString, y, l.
  - destruct (IH H) as (x & y & l & Hs). rewrite Hs.
    now exists (String a x), y, l.
Qed.

Lemma find_input_probes env dir ccd :
  quiet is_exists (Legacy.find_input env dir ccd).
Proof.
  unfold Legacy.find_input, Legacy.exists_. quiet_steps; exact I.
Qed.

Lemma find_input_none env dir ccd w :
  (forall t f, answer env t (CExists f) = Done 0) ->
  fst (Legacy.find_input env dir ccd w)
  = Raise (RuntimeError ("No CCD file found for " ++ ccd)).
Proof.
  intros Hz. unfold Legacy.find_input, Legacy.exists_.
  destruct (Str.contains "-" ccd) eqn:Hc.
  - destruct (splitn1_cut _ _ Hc) as (raft & sensor & Hsp).
    rewrite Hsp. cbn [Harness.unpack2].
    unfold bind, call, ret, raise.
    repeat (rewrite Hz; cbn [Z.eqb negb]; cbv beta iota). reflexivity.
  - unfold bind, call, ret, raise.
    repeat (rewrite Hz; cbn [Z.eqb negb]; cbv beta iota). reflexivity.
Qed.

Lemma lookup_in k d :
  In k (map fst d) -> exists v, Legacy.lookup k d = Some v.
Proof.
  induction d as [|[k' v] d IH]; intros H; [contradiction|].
  cbn [Legacy.lookup]. destruct (Legacy.lookup k d) as [v'|] eqn:E; [eauto|].
  destruct H as [H|H].
  - cbn [fst] in H. subst k'. rewrite String.eqb_refl. eauto.
  - destruct (IH H) as (v0 & H0). discriminate.
Qed.

Lemma bind_ok {A B} (m : M A) (f : A -> M B) w b :
  fst (bind m f w) = Ok b ->
  exists a w1, m w = (Ok a, w1) /\ fst (f a w1) = Ok b.
Proof.
  unfold bind. destruct (m w) as [[a|e] w1]; intros H; [|discriminate].
  now exists a, w1.
Qed.

Lemma input_paths_keys env dir ccds : forall w d,
  fst (Legacy.input_paths env dir ccds w) = Ok d -> map fst d = ccds.
Proof.
  induction ccds as [|ccd r IH]; intros w d H.
  - inversion H. reflexivity.
  - cbn [Legacy.input_paths] in H.
    apply bind_ok in H as (p & w1 & _ & H).
    apply bind_ok in H as (d' & w2 & H' & H).
    inversion H. cbn [map fst]. f_equal. apply (IH w1).
    now rewrite H'.
Qed.

End LegacyFacts.

(** X7: which file [find_input] of the older harness picks. A path it
    returns is one of its three candidates under the directory, the file of
    the whole name, the file of what follows the first dash of the name, or
    [S00.fits], and a probe of that very path answered true during the
    call; it makes no call other than such probes; and when no probe
    answers true it ends with the [RuntimeError] that names the CCD. *)
Theorem find_input_result env dir ccd w :
  (forall p,
      fst (Legacy.find_input env dir ccd w) = Ok p ->
      (p = joinpath dir [ccd ++ ".fits"] \/
       (exists raft sensor,
           ccd = raft ++ "-" ++ sensor /\ Str.contains "-" raft = false /\
           p = joinpath dir [sensor ++ ".fits"]) \/
       p = joinpath dir ["S00.fits"]) /\
      exists t s, answer env t (CExists (str p)) = Done s /\ s <> 0)
  /\
  (exists l,
      trace (snd (Legacy.find_input env dir ccd w)) = (trace w ++ l)%list /\
      Forall is_exists l)
  /\
  ((forall t f, answer env t (CExists f) = Done 0) ->
   fst (Legacy.find_input env dir ccd w)
   = Raise (RuntimeError ("No CCD file found for " ++ ccd))).
Proof.
  split; [|split].
  - intros p. unfold Legacy.find_input, Legacy.exists_.
    destruct (Str.contains "-" ccd) eqn:Hc.
    + destruct (StrFacts.splitn1_cut _ _ Hc) as (raft & sensor & Hsp).
      destruct (LegacyFacts.splitn1_inv _ _ _ _ Hsp) as [Hccd Hraft].
      rewrite Hsp. cbn [Harness.unpack2].
      repeat (CopyFacts.run_cases;
              try match goal with
                  | |- context [if negb (?s =? 0) then _ else _] =>
                      destruct (s =? 0) eqn:?; cbn [negb]
                  end);
        intros H; try discriminate H; inversion H; subst p; clear H;
        (split;
         [first [ left; reflexivity
                | right; right; reflexivity
                | right; left; exists raft, sensor;
                  split; [exact Hccd|split; [exact Hraft|reflexivity]] ]
         | match goal with
           | H1 : answer env ?t (CExists ?f) = Done ?s,
             H2 : (?s =? 0) = false |- exists _ _, answer env _ (CExists ?f) = _ /\ _ =>
               exists t, s; split; [exact H1|now apply Z.eqb_neq]
           end ]).
    + repeat (CopyFacts.run_cases;
              try match goal with
                  | |- context [if negb (?s =? 0) then _ else _] =>
                      destruct (s =? 0) eqn:?; cbn [negb]
                  end);
        intros H; try discriminate H; inversion H; subst p; clear H;
        (split;
         [first [ left; reflexivity | right; right; reflexivity ]
         | match goal with
           | H1 : answer env ?t (CExists ?f) = Done ?s,
             H2 : (?s =? 0) = false |- exists _ _, answer env _ (CExists ?f) = _ /\ _ =>
               exists t, s; split; [exact H1|now apply Z.eqb_neq]
           end ]).
  - destruct (LegacyFacts.find_input_probes env dir ccd w) as (_ & l & E & Hl).
    now exists l.
  - apply LegacyFacts.find_input_none.
Qed.

(** X8: the table of input files the older [simulate] builds before its
    loop has one entry for every CCD of the list, in the order of the list:
    the look-ups of the loop, which go through the same list, cannot
    miss. *)
Theorem input_files_cover env dir ccds w d :
  fst (Legacy.input_paths env dir ccds w) = Ok d ->
  map fst d = ccds /\
  forall ccd, In ccd ccds -> exists p, Legacy.lookup ccd d = Some p.
Proof.
  intros H. pose proof (LegacyFacts.input_paths_keys env dir ccds w d H) as Hk.
  split; [exact Hk|]. intros ccd Hin.
  apply LegacyFacts.lookup_in. now rewrite Hk.
Qed.

(** X8, witness: two CCDs in a directory where every file exists. *)
Lemma input_files_cover_witness :
  exists p,
    Legacy.lookup "R00-S11"
      [("R00-S00", joinpath (parse "data") ["R00-S00.fits"]);
       ("R00-S11", joinpath (parse "data") ["R00-S11.fits"])] = Some p.
Proof.
  exact (proj2 (input_files_cover env_files (parse "data")
                  ["R00-S00"; "R00-S11"] Runs.w0 _ eq_refl)
               "R00-S11" (or_intror (or_introl eq_refl))).
Defined.



(** X10: how the older [create] reads a destination that has none of its
    four prefixes. Without a colon it is refused with [RuntimeError];
    with exactly one colon it is an scp destination, the host before the
    colon and the path after it; with two colons or more [create] ends
    with the [ValueError] of the unpacking and builds no uploader. *)
Theorem legacy_create_by_colon env dest w :
  (Str.contains ":" dest = false ->
   fst (Legacy.create env dest w)
   = Raise (RuntimeError ("Unrecognized URL " ++ dest)))
  /\
  (legacy_recognized dest = false ->
   forall host path,
     dest = host ++ ":" ++ path ->
     Str.contains ":" host = false ->
     (Str.contains ":" path = false ->
      fst (Legacy.create env dest w)
      = Ok (Legacy.ScpUploader host (parse path)))
     /\
     (Str.contains ":" path = true ->
      fst (Legacy.create env dest w)
      = Raise (ValueError "wrong number of values to unpack"))).
Proof.
  split.
  - intros Hc. unfold Legacy.create.
    destruct (Str.startswith "gsapi://" dest) eqn:E1;
      [apply (LegacyFacts.startswith_contains ":") in E1;
       [congruence|reflexivity]|].
    destruct (Str.startswith "gs://" dest) eqn:E2;
      [apply (LegacyFacts.startswith_contains ":") in E2;
       [congruence|reflexivity]|].
    destruct (Str.startswith "https://" dest) eqn:E3;
      [apply (LegacyFacts.startswith_contains ":") in E3;
       [congruence|reflexivity]|].
    destruct (Str.startswith "http://" dest) eqn:E4;
      [apply (LegacyFacts.startswith_contains ":") in E4;
       [congruence|reflexivity]|].
    rewrite Hc. reflexivity.
  - intros Hr host path Hd Hh.
    unfold legacy_recognized, legacy_schemes in Hr. cbn [existsb] in Hr.
    apply orb_false_iff in Hr as [E1 Hr].
    apply orb_false_iff in Hr as [E2 Hr].
    apply orb_false_iff in Hr as [E3 Hr].
    apply orb_false_iff in Hr as [E4 _].
    assert (Hc : Str.contains ":" dest = true).
    { subst dest. apply DestinationFacts.contains_sep_app. }
    assert (Hs : Str.split ":" dest = host :: Str.split ":" path).
    { subst dest. apply (StrFacts.split_app _ _ _ Hh). }
    unfold Legacy.create. rewrite E1, E2, E3, E4, Hc.
    unfold Legacy.ScpUploader_init. rewrite Hs. split.
    + intros Hp. rewrite (StrFacts.split_plain _ _ Hp). reflexivity.
    + intros Hp.
      destruct (LegacyFacts.split_two _ _ Hp) as (x & y & l & Hl).
      rewrite Hl. reflexivity.
Qed.

(** X10, witness: [host:dir] is an scp destination, [host:a:b] is not
    read. *)
Lemma legacy_create_by_colon_witness :
  fst (Legacy.create Runs.env_ok "host:dir" Runs.w0)
  = Ok (Legacy.ScpUploader "host" (parse "dir")) /\
  fst (Legacy.create Runs.env_ok "host:a:b" Runs.w0)
  = Raise (ValueError "wrong number of values to unpack").
Proof.
  split.
  - exact (proj1 (proj2 (legacy_create_by_colon Runs.env_ok "host:dir"
                           Runs.w0) eq_refl "host" "dir" eq_refl eq_refl)
                 eq_refl).
  - exact (proj2 (proj2 (legacy_create_by_colon Runs.env_ok "host:a:b"
                           Runs.w0) eq_refl "host" "a:b" eq_refl eq_refl)
                 eq_refl).
Defined.

(** X11: what [wait_until] of the older harness waits for. Its target is
    the given hour and minute on the day of its first reading of the
    clock. As long as the second reading is no more than a day past the
    target, it returns after exactly four calls, the two readings, the
    message and one sleep of a length from 0 up to, not including, 24
    hours: the time left to the target, or that time plus 24 hours when the
    target is already past; it returns no earlier than that. A second
    reading more than a day past the target ends it with the [ValueError] of
    a negative sleep. *)
Theorem wait_until_next_occurrence env hour minute w when :
  Datetime.replace_hm_keep_us (clock w) hour minute = Some when ->
  let t' := clock (advance env CNow 0 w) in
  let delay := if when - t' <? 0 then when - t' + Datetime.us_per_day
               else when - t' in
  (t' <= when + Datetime.us_per_day ->
   fst (Legacy.wait_until env hour minute w) = Ok tt /\
   trace (snd (Legacy.wait_until env hour minute w))
   = (trace w ++ [CNow; CNow; CLog (SleepingUntilMsg delay hour minute);
                  CSleep delay])%list /\
   0 <= delay < Datetime.us_per_day /\
   t' + delay <= clock (snd (Legacy.wait_until env hour minute w)))
  /\
  (when + Datetime.us_per_day < t' ->
   fst (Legacy.wait_until env hour minute w)
   = Raise (ValueError "sleep length must be non-negative")).
Proof.
  intros Hw t' delay.
  assert (Hb : when - clock w < Datetime.us_per_day).
  { unfold Datetime.replace_hm_keep_us in Hw.
    destruct ((0 <=? hour) && (hour <=? 23) && (0 <=? minute)
              && (minute <=? 59))%bool eqn:Hr; [|discriminate].
    repeat (apply andb_true_iff in Hr as [Hr ?]).
    inversion Hw. unfold Datetime.time_of_day, Datetime.us_per_day,
      Datetime.us_per_second in *.
    pose proof (Z.mod_pos_bound (clock w) (86400 * 1000000) ltac:(lia)).
    pose proof (Z.mod_pos_bound (clock w) 1000000 ltac:(lia)).
    lia. }
  assert (Ht : clock w <= t').
  { unfold t', advance. cbn [clock]. lia. }
  unfold Legacy.wait_until.
  unfold bind, datetime_now, logging_info, time_sleep. rewrite Hw.
  cbn [lift]. unfold ret. cbv beta iota.
  fold t'.
  change (24 * 3600 * Datetime.us_per_second) with Datetime.us_per_day.
  fold delay.
  split.
  - intros Hlt.
    assert (Hd : 0 <= delay < Datetime.us_per_day).
    { unfold delay. destruct (when - t' <? 0) eqn:En.
      - apply Z.ltb_lt in En. lia.
      - apply Z.ltb_ge in En. lia. }
    destruct (delay <? 0) eqn:En; [apply Z.ltb_lt in En; lia|].
    assert (Hfit : (delay <=? sleep_max) = true).
    { apply Z.leb_le. unfold sleep_max, Datetime.us_per_day,
        Datetime.us_per_second in *. lia. }
    rewrite Hfit.
    cbn [fst snd]. split; [reflexivity|]. split.
    + unfold advance. cbn [trace]. rewrite <- !app_assoc. reflexivity.
    + split; [exact Hd|]. unfold advance. cbn [clock]. unfold t', advance.
      cbn [clock]. lia.
  - intros Hge.
    assert (Hd : delay < 0).
    { unfold delay. destruct (when - t' <? 0) eqn:En.
      - lia.
      - apply Z.ltb_ge in En. unfold Datetime.us_per_day,
          Datetime.us_per_second in *. lia. }
    rewrite (proj2 (Z.ltb_lt _ _) Hd). reflexivity.
Qed.

(** X11, witness: at 09:59:50 the target 09:00 is past, and the sleep is
    the 24 hours less 59 minutes 50 seconds to the next 09:00. *)
Lemma wait_until_next_occurrence_witness :
  trace (snd (Legacy.wait_until Runs.env_ok 9 0 Runs.w0))
  = [CNow; CNow;
     CLog (SleepingUntilMsg (86400000000 - 3590000000) 9 0);
     CSleep (86400000000 - 3590000000)].
Proof.
  exact (proj1 (proj2 (proj1 (wait_until_next_occurrence Runs.env_ok 9 0
                                Runs.w0
                                (738886 * Datetime.us_per_day + 32400000000)
                                eq_refl)
                             ltac:(vm_compute; discriminate)))).
Defined.
